(** * The CodeBuild trigger custom resource

    A shallow embedding of the Lambda function [CodeBuildTriggerFunction]
    (the inline [ZipFile] of the CloudFormation template): the handler
    [lambda_handler] and its helpers [get_cfn_env_var_overrides],
    [handle_create], [handle_delete] and [handle_update].

    The function receives a CloudFormation custom-resource event (a Python
    [dict] decoded from JSON), possibly calls [codebuild.start_build] and
    possibly calls [cfnresponse.send].  Both collaborators live outside the
    repository, so they are oracles of the [runtime]; every call and its
    outcome is appended to a trace, which survives exceptions. *)

From Stdlib Require Import String Ascii List ZArith Bool Lia DecimalString.
From Stdlib Require Import Permutation.
From ExtLib Require Import Structures.Monad Structures.MonadExc.
Import ListNotations.
Import MonadNotation.
Local Open Scope string_scope.
Local Open Scope monad_scope.
Set Warnings "-register-all".

(** ** Python values *)

Module Py.

(** The values a JSON-decoded event is made of; its numbers are integers
    here.  A [dict] keeps its insertion order (which [json.dumps] follows),
    so it is an association list; a lookup takes the first binding of the
    key. *)
Inductive value : Type :=
| VNone
| VBool (b : bool)
| VInt (n : Z)
| VStr (s : string)
| VList (l : list value)
| VDict (d : list (string * value)).

Definition dict : Type := list (string * value).

Fixpoint lookup (k : string) (d : dict) : option value :=
  match d with
  | [] => None
  | (k', v) :: d' => if String.eqb k k' then Some v else lookup k d'
  end.

(** [bool(v)]: what [if v:] and [not v] test. *)
Definition truthy (v : value) : bool :=
  match v with
  | VNone => false
  | VBool b => b
  | VInt n => negb (n =? 0)%Z
  | VStr s => negb (String.eqb s EmptyString)
  | VList l => match l with [] => false | _ :: _ => true end
  | VDict d => match d with [] => false | _ :: _ => true end
  end.

(** [v == "literal"] for a string literal on the right. *)
Definition eq_str (v : value) (s : string) : bool :=
  match v with
  | VStr s' => String.eqb s' s
  | _ => false
  end.

(** [type(v).__name__]. *)
Definition type_name (v : value) : string :=
  match v with
  | VNone => "NoneType"
  | VBool _ => "bool"
  | VInt _ => "int"
  | VStr _ => "str"
  | VList _ => "list"
  | VDict _ => "dict"
  end.

(** The exceptions the handler can meet.  [ServiceError] stands for
    whatever a collaborator raises (a botocore [ClientError], an HTTP
    failure, ...), with its description. *)
Inductive exn : Type :=
| KeyError (key : string)
| AttributeError (type_of attr : string)
| TypeError (msg : string)
| ServiceError (msg : string).

(** [str(e)].  For a [KeyError] it is the [repr] of the key; every key the
    handler subscripts with is a plain identifier, whose [repr] is the key
    between single quotes. *)
Definition str_exn (e : exn) : string :=
  match e with
  | KeyError k => "'" ++ k ++ "'"
  | AttributeError t a => "'" ++ t ++ "' object has no attribute '" ++ a ++ "'"
  | TypeError m => m
  | ServiceError m => m
  end.

(** A computation that returns or raises. *)
Definition result (A : Type) : Type := sum exn A.

Definition Ok {A} (a : A) : result A := inr a.
Definition Raise {A} (e : exn) : result A := inl e.

(** [d[k]] on a dict. *)
Definition getitem (d : dict) (k : string) : result value :=
  match lookup k d with
  | Some v => Ok v
  | None => Raise (KeyError k)
  end.

(** [d.get(k, dflt)] on a dict. *)
Definition get (d : dict) (k : string) (dflt : value) : value :=
  match lookup k d with
  | Some v => v
  | None => dflt
  end.

(** [v[k]] on any value, [k] a string (Python 3.10 messages). *)
Definition subscript (v : value) (k : string) : result value :=
  match v with
  | VDict d => getitem d k
  | VList _ => Raise (TypeError "list indices must be integers or slices, not str")
  | VStr _ => Raise (TypeError "string indices must be integers")
  | _ => Raise (TypeError ("'" ++ type_name v ++ "' object is not subscriptable"))
  end.

(** [v.get(k, dflt)] on any value: only a dict has the method. *)
Definition method_get (v : value) (k : string) (dflt : value) : result value :=
  match v with
  | VDict d => Ok (get d k dflt)
  | _ => Raise (AttributeError (type_name v) "get")
  end.

(** [str(n)] for an integer. *)
Definition str_int (n : Z) : string := NilZero.string_of_int (Z.to_int n).

End Py.

Import Py.

(** ** The outside world *)

Inductive status : Type := SUCCESS | FAILED.

(** One entry of [environmentVariablesOverride]. *)
Record env_var : Type := EnvVar {
  ev_name : string;
  ev_type : string;
  ev_value : value
}.

(** What [cfnresponse.send] is given besides the event and the context:
    the status, the ["Reason"] of the response data (the handler's data is
    always [{"Reason": ...}]) and the [physicalResourceId] keyword, [None]
    when the call leaves it out. *)
Record report : Type := Report {
  Status : status;
  Reason : string;
  PhysicalResourceId : value
}.

(** A call to a collaborator, with what came back. *)
Inductive call : Type :=
| StartBuild (projectName : value)
             (environmentVariablesOverride : list env_var)
             (outcome : result value)
| Send (r : report) (outcome : result unit).

Definition trace : Type := list call.

(** What the handler does not define itself: [json.dumps], the [repr] that
    [str] falls back on for lists and dicts, the CodeBuild client and the
    [cfnresponse] module.  A collaborator answers by its arguments alone;
    in one invocation the handler calls [start_build] at most once and
    [send] at most twice. *)
Record runtime : Type := Runtime {
  json_dumps : value -> string;
  repr : value -> string;
  codebuild_start_build : value -> list env_var -> result value;
  cfnresponse_send : dict -> report -> result unit
}.

(** ** The effect monad: raise or return, and a trace that is kept *)

Definition Lambda (A : Type) : Type := trace -> result A * trace.

#[export] Instance Monad_result : Monad result := {
  ret := fun _ a => inr a;
  bind := fun _ _ r f => match r with inl e => inl e | inr a => f a end
}.

#[export] Instance Monad_Lambda : Monad Lambda := {
  ret := fun _ a t => (inr a, t);
  bind := fun _ _ m f t =>
    match m t with
    | (inl e, t') => (inl e, t')
    | (inr a, t') => f a t'
    end
}.

#[export] Instance Exc_Lambda : MonadExc exn Lambda := {
  raise := fun _ e t => (inl e, t);
  catch := fun _ m h t =>
    match m t with
    | (inl e, t') => h e t'
    | (inr a, t') => (inr a, t')
    end
}.

(** A pure step that may raise. *)
Definition lift {A} (r : result A) : Lambda A := fun t => (r, t).

Section Handler.

Variable rt : runtime.

(** [codebuild.start_build(projectName=..., environmentVariablesOverride=...)] *)
Definition start_build (projectName : value) (env : list env_var) : Lambda value :=
  fun t =>
    let r := codebuild_start_build rt projectName env in
    (r, (t ++ [StartBuild projectName env r])%list).

(** [cfnresponse.send(event, context, status, {"Reason": reason},
    physicalResourceId=pid)] *)
Definition send (event : dict) (st : status) (reason : string) (pid : value)
  : Lambda unit :=
  fun t =>
    let r := cfnresponse_send rt event (Report st reason pid) in
    (r, (t ++ [Send (Report st reason pid) r])%list).

(** [str(v)], as an f-string field formats it. *)
Definition str (v : value) : string :=
  match v with
  | VStr s => s
  | VInt n => str_int n
  | VBool true => "True"
  | VBool false => "False"
  | VNone => "None"
  | _ => repr rt v
  end.

(** ** The handler *)

Definition get_cfn_env_var_overrides (event : dict) : result (list env_var) :=
  let res_config := get event "ResourceProperties" (VDict []) in
  request_type <- getitem event "RequestType" ;;
  let result := [EnvVar "CFN_EVENT_TYPE" "PLAINTEXT" request_type] in
  callback <- method_get res_config "CodeBuildCallback" VNone ;;
  if truthy callback then
    logical_resource_id <- getitem event "LogicalResourceId" ;;
    request_id <- getitem event "RequestId" ;;
    stack_id <- getitem event "StackId" ;;
    properties <- getitem event "ResourceProperties" ;;
    no_echo <- method_get properties "NoEcho" (VBool false) ;;
    let data := json_dumps rt (VDict [
      ("LogicalResourceId", logical_resource_id);
      ("RequestId", request_id);
      ("StackId", stack_id);
      ("NoEcho", no_echo);
      ("Data", VDict [])]) in
    response_url <- getitem event "ResponseURL" ;;
    ret (result ++ [
      EnvVar "CFN_EVENT_DATA" "PLAINTEXT" (VStr data);
      EnvVar "CFN_EVENT_RESPONSE_URL" "PLAINTEXT" response_url])%list
  else ret result.

Definition handle_create (event : dict) : Lambda unit :=
  res_config <- lift (getitem event "ResourceProperties") ;;
  codebuild_env_vars <- lift (get_cfn_env_var_overrides event) ;;
  project_name <- lift (subscript res_config "ProjectName") ;;
  result <- start_build project_name codebuild_env_vars ;;
  callback <- lift (method_get res_config "CodeBuildCallback" VNone) ;;
  if negb (truthy callback) then
    build <- lift (subscript result "build") ;;
    build_number <- lift (subscript build "buildNumber") ;;
    build' <- lift (subscript result "build") ;;
    arn <- lift (subscript build' "arn") ;;
    send event SUCCESS ("Started CodeBuild #" ++ str build_number) arn
  else ret tt.

Definition handle_delete (event : dict) : Lambda unit :=
  let res_config := get event "ResourceProperties" (VDict []) in
  build_on_delete <- lift (method_get res_config "BuildOnDelete" (VBool false)) ;;
  reason <-
    (if truthy build_on_delete then
       codebuild_env_vars <- lift (get_cfn_env_var_overrides event) ;;
       project_name <- lift (subscript res_config "ProjectName") ;;
       _ <- start_build project_name codebuild_env_vars ;;
       ret "Deletion build initiated"
     else ret "Delete is a no-op") ;;
  delegated <-
    (if truthy build_on_delete then
       callback <- lift (method_get res_config "CodeBuildCallback" VNone) ;;
       ret (truthy callback)
     else ret false) ;;
  if negb delegated then
    physical_resource_id <- lift (getitem event "PhysicalResourceId") ;;
    send event SUCCESS reason physical_resource_id
  else ret tt.

(** The lookup of ["CodeBuildCalback"] is spelled as the source spells it. *)
Definition handle_update (event : dict) : Lambda unit :=
  let res_config := get event "ResourceProperties" (VDict []) in
  ignore_update <- lift (method_get res_config "IgnoreUpdate" (VBool false)) ;;
  reason <-
    (if truthy ignore_update then ret (Some "Update is a no-op")
     else
       codebuild_env_vars <- lift (get_cfn_env_var_overrides event) ;;
       project_name <- lift (subscript res_config "ProjectName") ;;
       result <- start_build project_name codebuild_env_vars ;;
       callback <- lift (method_get res_config "CodeBuildCalback" VNone) ;;
       if truthy callback then ret None
       else
         build <- lift (subscript result "build") ;;
         build_number <- lift (subscript build "buildNumber") ;;
         ret (Some ("Started CodeBuild #" ++ str build_number))) ;;
  match reason with
  | Some reason =>
      physical_resource_id <- lift (getitem event "PhysicalResourceId") ;;
      send event SUCCESS reason physical_resource_id
  | None => ret tt
  end.

(** The body of the [try] block of [lambda_handler]. *)
Definition lambda_handler_try (event : dict) : Lambda unit :=
  request_type <- lift (getitem event "RequestType") ;;
  if eq_str request_type "Create" then handle_create event
  else if eq_str request_type "Update" then handle_update event
  else if eq_str request_type "Delete" then handle_delete event
  else
    send event FAILED
      ("Unsupported CFN RequestType '" ++ str request_type ++ "'") VNone.

(** [logging] and [traceback] only write to the log and are left out; the
    [context] is only handed on to [cfnresponse.send]. *)
Definition lambda_handler (event : dict) : Lambda unit :=
  catch (lambda_handler_try event)
    (fun e =>
       send event FAILED (str_exn e) VNone ;;
       raise e).

End Handler.

(** ** What a run shows *)

(** The builds that [start_build] accepted, and the reports that
    [cfnresponse.send] accepted. *)
Definition builds_started (t : trace) : list (value * list env_var) :=
  flat_map (fun c => match c with
                     | StartBuild p env (inr _) => [(p, env)]
                     | _ => []
                     end) t.

Definition reports_sent (t : trace) : list report :=
  flat_map (fun c => match c with
                     | Send r (inr _) => [r]
                     | _ => []
                     end) t.

(** A flag of the resource properties, as [if res_config.get(p):] reads it. *)
Definition flag (rp : dict) (p : string) : bool := truthy (get rp p VNone).

(** The raw value of a resource property of the event. *)
Definition raw (event : dict) (p : string) : option value :=
  match lookup "ResourceProperties" event with
  | Some (VDict rp) => lookup p rp
  | _ => None
  end.

(** Two events that are the same but for the resource property [p]. *)
Definition differ_only_in (p : string) (e1 e2 : dict) : Prop :=
  (forall k, k <> "ResourceProperties" -> lookup k e1 = lookup k e2) /\
  exists rp1 rp2,
    lookup "ResourceProperties" e1 = Some (VDict rp1) /\
    lookup "ResourceProperties" e2 = Some (VDict rp2) /\
    forall k, k <> p -> lookup k rp1 = lookup k rp2.

(** ** Stand-ins for the collaborators, to run the handler on examples *)

Module Double.

Definition dquote : string := String (ascii_of_nat 34) EmptyString.

(** [json.dumps] with its default separators, for values whose strings
    need no escaping. *)
Fixpoint dumps (v : value) : string :=
  match v with
  | VNone => "null"
  | VBool true => "true"
  | VBool false => "false"
  | VInt n => str_int n
  | VStr s => dquote ++ s ++ dquote
  | VList l =>
      "[" ++ (fix items (l : list value) : string :=
                match l with
                | [] => EmptyString
                | x :: l' =>
                    match l' with
                    | [] => dumps x
                    | _ :: _ => dumps x ++ ", " ++ items l'
                    end
                end) l ++ "]"
  | VDict d =>
      "{" ++ (fix items (d : list (string * value)) : string :=
                match d with
                | [] => EmptyString
                | (k, x) :: d' =>
                    match d' with
                    | [] => dquote ++ k ++ dquote ++ ": " ++ dumps x
                    | _ :: _ => dquote ++ k ++ dquote ++ ": " ++ dumps x ++ ", " ++ items d'
                    end
                end) d ++ "}"
  end.

(** [repr] of a list or a dict, for values whose strings need no escaping. *)
Fixpoint repr_plain (v : value) : string :=
  match v with
  | VNone => "None"
  | VBool true => "True"
  | VBool false => "False"
  | VInt n => str_int n
  | VStr s => "'" ++ s ++ "'"
  | VList l =>
      "[" ++ (fix items (l : list value) : string :=
                match l with
                | [] => EmptyString
                | x :: l' =>
                    match l' with
                    | [] => repr_plain x
                    | _ :: _ => repr_plain x ++ ", " ++ items l'
                    end
                end) l ++ "]"
  | VDict d =>
      "{" ++ (fix items (d : list (string * value)) : string :=
                match d with
                | [] => EmptyString
                | (k, x) :: d' =>
                    match d' with
                    | [] => "'" ++ k ++ "': " ++ repr_plain x
                    | _ :: _ => "'" ++ k ++ "': " ++ repr_plain x ++ ", " ++ items d'
                    end
                end) d ++ "}"
  end.

(** The part of a [start_build] response the handler reads. *)
Definition build_response (arn : string) (number : Z) : value :=
  VDict [("build", VDict [("arn", VStr arn); ("buildNumber", VInt number)])].

Definition arn1 : string := "arn:aws:codebuild:us-east-1:111122223333:build/p1:7".

(** Both collaborators answer. *)
Definition rt_ok : runtime :=
  Runtime dumps repr_plain
    (fun _ _ => Ok (build_response arn1 7))
    (fun _ _ => Ok tt).

(** CodeBuild refuses. *)
Definition rt_no_build : runtime :=
  Runtime dumps repr_plain
    (fun _ _ => Raise (ServiceError "An error occurred (ResourceNotFoundException) when calling the StartBuild operation"))
    (fun _ _ => Ok tt).

(** An event as CloudFormation sends it. *)
Definition event_of (request_type : string) (rp : dict) (rest : dict) : dict :=
  ([("RequestType", VStr request_type);
    ("ResponseURL", VStr "https://cfn.example/response");
    ("StackId", VStr "stack-1");
    ("RequestId", VStr "req-1");
    ("LogicalResourceId", VStr "SampleDeployment");
    ("ResourceProperties", VDict rp)] ++ rest)%list.

Definition x_id : (string * value) := ("PhysicalResourceId", VStr "X").

Definition create_event : dict :=
  event_of "Create" [("ProjectName", VStr "p1")] [].

Definition create_callback_event : dict :=
  event_of "Create" [("ProjectName", VStr "p1"); ("CodeBuildCallback", VStr "true")] [].

Definition update_ignored_event : dict :=
  event_of "Update" [("ProjectName", VStr "p1"); ("IgnoreUpdate", VBool true)] [x_id].

Definition update_callback_event : dict :=
  event_of "Update" [("ProjectName", VStr "p1"); ("CodeBuildCallback", VBool true)] [x_id].

Definition delete_event (rp : dict) : dict :=
  event_of "Delete" (("ProjectName", VStr "p1") :: rp) [x_id].

Definition delete_without_id (rp : dict) : dict :=
  event_of "Delete" (("ProjectName", VStr "p1") :: rp) [].

Definition unsupported_event : dict :=
  event_of "Frob" [("ProjectName", VStr "p1")] [].

End Double.

Import Double.

(** ** The build job: what the buildspec runs with the overrides *)

(** The [build] phase ends with
    [if [ "$CFN_EVENT_TYPE" = "Delete" ]; then npx cdk destroy --all --force;
    else npx cdk deploy --all --concurrency 8 --require-approval never; fi]:
    the command for a value of [CFN_EVENT_TYPE] (an unset variable expands
    to the empty string). *)
Definition cdk_command (cfn_event_type : string) : string :=
  if String.eqb cfn_event_type "Delete"
  then "npx cdk destroy --all --force"
  else "npx cdk deploy --all --concurrency 8 --require-approval never".

Module Job.

(** [os.environ]: names to strings. *)
Definition environ : Type := list (string * string).

(** [os.environ.get(k)] *)
Fixpoint getenv (k : string) (env : environ) : option string :=
  match env with
  | [] => None
  | (k', v) :: env' => if String.eqb k k' then Some v else getenv k env'
  end.

(** [os.environ[k]] *)
Definition environ_item (env : environ) (k : string) : result string :=
  match getenv k env with
  | Some v => Ok v
  | None => Raise (KeyError k)
  end.

(** [s.partition(c)[2]]: what follows the first [c], nothing when [s] has
    no [c]. *)
Fixpoint partition_tail (c : ascii) (s : string) : string :=
  match s with
  | EmptyString => EmptyString
  | String a s' => if Ascii.eqb a c then s' else partition_tail c s'
  end.

(** [d[k] = x] on a dict: the binding is replaced where it stands, or
    added at the end. *)
Fixpoint dict_set (k : string) (x : value) (d : dict) : dict :=
  match d with
  | [] => [(k, x)]
  | (k', v) :: d' =>
      if String.eqb k k' then (k', x) :: d' else (k', v) :: dict_set k x d'
  end.

(** [v[k] = x] on any value, [k] a string. *)
Definition setitem (v : value) (k : string) (x : value) : result value :=
  match v with
  | VDict d => Ok (VDict (dict_set k x d))
  | VList _ => Raise (TypeError "list indices must be integers or slices, not str")
  | _ => Raise (TypeError ("'" ++ type_name v ++ "' object does not support item assignment"))
  end.

(** What the script prints and what it sends. *)
Inductive job_call : Type :=
| Print (line : string)
| Put (url body : string) (outcome : result unit).

(** What the script does not define: [json.loads], [json.dumps], [int] on
    a string, [repr] and [requests.put]. *)
Record host : Type := Host {
  job_json_loads : string -> result value;
  job_json_dumps : value -> string;
  job_int : string -> result Z;
  job_repr : value -> string;
  requests_put : string -> string -> result unit
}.

(** How the script ends when it does not raise. *)
Inductive ending : Type :=
| Exit0       (** [exit(0)] *)
| Completed.  (** the last statement ran *)

Definition Script (A : Type) : Type := list job_call -> result A * list job_call.

#[export] Instance Monad_Script : Monad Script := {
  ret := fun _ a t => (inr a, t);
  bind := fun _ _ m f t =>
    match m t with
    | (inl e, t') => (inl e, t')
    | (inr a, t') => f a t'
    end
}.

#[export] Instance Exc_Script : MonadExc exn Script := {
  raise := fun _ e t => (inl e, t);
  catch := fun _ m h t =>
    match m t with
    | (inl e, t') => h e t'
    | (inr a, t') => (inr a, t')
    end
}.

Definition step {A} (r : result A) : Script A := fun t => (r, t).

Definition print (line : string) : Script unit :=
  fun t => (inr tt, (t ++ [Print line])%list).

Section Callback.

Variable h : host.

Definition put (url body : string) : Script unit :=
  fun t =>
    let r := requests_put h url body in
    (r, (t ++ [Put url body r])%list).

(** [str(v)]: the string itself, the [repr] of anything else. *)
Definition format (v : value) : string :=
  match v with
  | VStr s => s
  | _ => job_repr h v
  end.

(** The body of the script's [try] block. *)
Definition cfn_callback_try (env : environ) (resp_url : string) : Script unit :=
  event_data <- step (environ_item env "CFN_EVENT_DATA") ;;
  data <- step (job_json_loads h event_data) ;;
  succeeding <- step (environ_item env "CODEBUILD_BUILD_SUCCEEDING") ;;
  succeeding <- step (job_int h succeeding) ;;
  data <- step (setitem data "Status"
                  (VStr (if (succeeding =? 0)%Z then "FAILED" else "SUCCESS"))) ;;
  build_arn <- step (environ_item env "CODEBUILD_BUILD_ARN") ;;
  data <- step (setitem data "PhysicalResourceId" (VStr build_arn)) ;;
  let log_stream := "/aws/codebuild/" ++ partition_tail "/" build_arn in
  data <- step (setitem data "Reason"
                  (VStr ("See details in " ++
                         (if truthy (VStr log_stream)
                          then "CloudWatch Log Stream " ++ log_stream
                          else "AWS CodeBuild " ++ build_arn)))) ;;
  put resp_url (job_json_dumps h data) ;;
  status <- step (subscript data "Status") ;;
  print ("Notified CloudFormation of " ++ format status).

(** The script piped to [python3 -] in the [finally] block. *)
Definition cfn_callback (env : environ) : Script ending :=
  let resp_url := getenv "CFN_EVENT_RESPONSE_URL" env in
  match resp_url with
  | Some url =>
      if truthy (VStr url) then
        catch (cfn_callback_try env url ;; ret Completed)
          (fun e =>
             print "Failed to send response to CloudFormation event handler" ;;
             raise e)
      else
        print "No CloudFormation response URL provided" ;;
        ret Exit0
  | None =>
      print "No CloudFormation response URL provided" ;;
      ret Exit0
  end.

End Callback.

(** What the script sent successfully. *)
Definition puts (t : list job_call) : list (string * string) :=
  flat_map (fun c => match c with
                     | Put url body (inr _) => [(url, body)]
                     | _ => []
                     end) t.

End Job.

(** ** The notebook: datapoints for fine-tuning *)

Module Notebook.

Inductive nb_exn : Type :=
| Exn (e : exn)
| IndexError (msg : string)
| KeyErrorInt (key : Z).

Definition nb_result (A : Type) : Type := sum nb_exn A.

#[export] Instance Monad_nb_result : Monad nb_result := {
  ret := fun _ a => inr a;
  bind := fun _ _ r f => match r with inl e => inl e | inr a => f a end
}.

(** A step that raises one of the exceptions of [Py]. *)
Definition up {A} (r : result A) : nb_result A :=
  match r with
  | inl e => inl (Exn e)
  | inr a => inr a
  end.

Definition newline : string := String (ascii_of_nat 10) EmptyString.

Definition system_instruction : string :=
  "You are a helpful assistant that summarizes news articles accurately and concisely.".

(** What the notebook does not define: [repr] and [random.shuffle], which
    here returns the list it leaves in place. *)
Record kernel : Type := Kernel {
  nb_repr : value -> string;
  shuffle : list value -> list value
}.

(** A [str] is held as the bytes of its UTF-8 encoding, and Python counts
    and indexes its code points.  A byte [10xxxxxx] continues the code
    point that the byte before it started. *)
Definition continuation (a : ascii) : bool :=
  match a with
  | Ascii _ _ _ _ _ _ false true => true
  | _ => false
  end.

(** The number of code points of a string: [len(s)]. *)
Fixpoint code_points (s : string) : nat :=
  match s with
  | EmptyString => 0
  | String a s' =>
      if continuation a then code_points s' else S (code_points s')
  end.

(** The continuation bytes that [s] starts with. *)
Fixpoint continuations (s : string) : string :=
  match s with
  | EmptyString => EmptyString
  | String a s' =>
      if continuation a then String a (continuations s') else EmptyString
  end.

(** The [i]-th code point of a string, with its continuation bytes:
    [s[i]]. *)
Fixpoint code_point_at (i : nat) (s : string) : option string :=
  match s with
  | EmptyString => None
  | String a s' =>
      if continuation a then code_point_at i s'
      else
        match i with
        | O => Some (String a (continuations s'))
        | S i' => code_point_at i' s'
        end
  end.

(** [v[i]] for an index [i >= 0]. *)
Definition item (v : value) (i : nat) : nb_result value :=
  match v with
  | VList l =>
      match nth_error l i with
      | Some x => inr x
      | None => inl (IndexError "list index out of range")
      end
  | VStr s =>
      match code_point_at i s with
      | Some c => inr (VStr c)
      | None => inl (IndexError "string index out of range")
      end
  | VDict _ => inl (KeyErrorInt (Z.of_nat i))
  | _ => inl (Exn (TypeError ("'" ++ type_name v ++ "' object is not subscriptable")))
  end.

(** [len(v)]: a string counts its code points, a dict its keys. *)
Definition len (v : value) : nb_result nat :=
  match v with
  | VStr s => inr (code_points s)
  | VList l => inr (List.length l)
  | VDict d => inr (List.length (nodup string_dec (map fst d)))
  | _ => inl (Exn (TypeError ("object of type '" ++ type_name v ++ "' has no len()")))
  end.

(** [lines[:k]] *)
Definition slice_to (k : Z) (lines : list value) : list value :=
  if (0 <=? k)%Z then firstn (Z.to_nat k) lines
  else firstn (List.length lines - Z.to_nat (- k)) lines.

Section Cells.

Variable kn : kernel.

(** [str(v)], as an f-string field formats it. *)
Definition fstr (v : value) : string :=
  match v with
  | VStr s => s
  | _ => nb_repr kn v
  end.

Definition convert_to_nova_micro_format (data_point : value) : result value :=
  article <- subscript data_point "article" ;;
  highlights <- subscript data_point "highlights" ;;
  ret (VDict [
    ("schemaVersion", VStr "bedrock-conversation-2024");
    ("system", VList [VDict [("text", VStr system_instruction)]]);
    ("messages", VList [
       VDict [
         ("role", VStr "user");
         ("content", VList [VDict [
            ("text", VStr ("Summarize the following news article:" ++ newline
                           ++ newline ++ fstr article))]])];
       VDict [
         ("role", VStr "assistant");
         ("content", VList [VDict [("text", highlights)]])]])]).

(** [len(dp['system'][0]['text'])] *)
Definition system_length (dp : value) : nb_result nat :=
  system <- up (subscript dp "system") ;;
  first <- item system 0 ;;
  text <- up (subscript first "text") ;;
  len text.

(** [len(dp['messages'][i]['content'][0]['text'])] *)
Definition message_length (dp : value) (i : nat) : nb_result nat :=
  messages <- up (subscript dp "messages") ;;
  message <- item messages i ;;
  content <- up (subscript message "content") ;;
  first <- item content 0 ;;
  text <- up (subscript first "text") ;;
  len text.

(** The [total_length] of the loop body. *)
Definition total_length (dp : value) : nb_result nat :=
  system <- system_length dp ;;
  user <- message_length dp 0 ;;
  assistant <- message_length dp 1 ;;
  ret (system + user + assistant)%nat.

(** [[convert_to_nova_micro_format(dp) for dp in rows]] *)
Fixpoint convert_all (rows : list value) : result (list value) :=
  match rows with
  | [] => ret []
  | data_point :: rest =>
      dp <- convert_to_nova_micro_format data_point ;;
      dps <- convert_all rest ;;
      ret (dp :: dps)
  end.

(** The loop of [dp_transform], from the [lines] collected so far. *)
Fixpoint dp_transform_loop (data_points : list value) (max_dp_length : Z)
    (lines : list value) : nb_result (list value) :=
  match data_points with
  | [] => ret lines
  | dp :: rest =>
      total <- total_length dp ;;
      dp_transform_loop rest max_dp_length
        (if (Z.of_nat total <=? max_dp_length)%Z
         then (lines ++ [dp])%list else lines)
  end.

Definition dp_transform (data_points : list value) (num_dps max_dp_length : Z)
  : nb_result (list value) :=
  lines <- dp_transform_loop data_points max_dp_length [] ;;
  let lines := shuffle kn lines in
  ret (slice_to (Z.min num_dps 20000) lines).

(** Whether [dp_transform] keeps a datapoint before the shuffle. *)
Definition fits (max_dp_length : Z) (dp : value) : bool :=
  match total_length dp with
  | inr total => (Z.of_nat total <=? max_dp_length)%Z
  | inl _ => false
  end.

End Cells.

End Notebook.

(** ** Stand-ins for the job and the notebook *)

Module Double2.

Import Job Notebook.

(** [json.loads] knows the one document of the examples. *)
Definition event_data1 : value :=
  VDict [("LogicalResourceId", VStr "SampleDeployment");
         ("RequestId", VStr "req-1");
         ("StackId", VStr "stack-1");
         ("NoEcho", VBool false);
         ("Data", VDict [])].

Definition loads1 (s : string) : result value :=
  if String.eqb s (dumps event_data1) then Ok event_data1
  else Raise (ServiceError "Expecting value: line 1 column 1 (char 0)").

Definition int1 (s : string) : result Z :=
  if String.eqb s "1" then Ok 1%Z
  else if String.eqb s "0" then Ok 0%Z
  else Raise (ServiceError "invalid literal for int() with base 10").

Definition host_ok : host :=
  Host loads1 dumps int1 repr_plain (fun _ _ => Ok tt).

Definition host_offline : host :=
  Host loads1 dumps int1 repr_plain
    (fun _ _ => Raise (ServiceError "Connection refused")).

Definition build_environ (succeeding : string) : environ :=
  [("CFN_EVENT_TYPE", "Create");
   ("CFN_EVENT_DATA", dumps event_data1);
   ("CFN_EVENT_RESPONSE_URL", "https://cfn.example/response");
   ("CODEBUILD_BUILD_SUCCEEDING", succeeding);
   ("CODEBUILD_BUILD_ARN", arn1)].

(** Neither collaborator answers. *)
Definition rt_down : runtime :=
  Runtime dumps repr_plain
    (fun _ _ => Raise (ServiceError "Could not connect to the endpoint URL"))
    (fun _ _ => Raise (ServiceError "Connection refused")).

Definition update_event (rp : dict) (rest : dict) : dict :=
  event_of "Update" (("ProjectName", VStr "p1") :: rp) rest.

(** The shuffle that turns the list over. *)
Definition kernel_rev : kernel := Kernel repr_plain (@rev value).

Definition row (article highlights : string) : value :=
  VDict [("article", VStr article); ("highlights", VStr highlights);
         ("id", VStr "0001")].

(** The euro sign, U+20AC: three bytes, one code point. *)
Definition euro : string :=
  String (ascii_of_nat 226)
    (String (ascii_of_nat 130) (String (ascii_of_nat 172) EmptyString)).

Definition sample_rows : list value :=
  [row "Stocks rose." "Up.";
   row "A storm hit the coast overnight." "Storm.";
   row "Short" "S"].

Definition sample_datapoints : list value :=
  match convert_all kernel_rev sample_rows with
  | inr dps => dps
  | inl _ => []
  end.

(** The sample rows and one whose article starts with a euro sign. *)
Definition mixed_datapoints : list value :=
  match convert_all kernel_rev
          (sample_rows ++ [row (euro ++ "5 rise.") "Up."])%list with
  | inr dps => dps
  | inl _ => []
  end.

Definition row_without_highlights : dict :=
  [("article", VStr "Stocks rose."); ("highlights", VNone)].

Definition event_without_type : dict :=
  [("ResponseURL", VStr "https://cfn.example/response")].

Definition event_with_text_properties : dict :=
  [("RequestType", VStr "Delete");
   ("ResourceProperties", VStr "ProjectName=p1")].

Definition create_event_without_ids : dict :=
  [("RequestType", VStr "Create");
   ("ResourceProperties",
    VDict [("ProjectName", VStr "p1"); ("CodeBuildCallback", VBool true)])].

End Double2.

Import Double2.

(** ** Tactics for runs *)

(** Unfolds one run of the handler down to the reads of the event. *)
Ltac run_handler :=
  unfold lambda_handler, lambda_handler_try, handle_create, handle_update,
    handle_delete, send, start_build, lift;
  cbn [catch raise bind ret Exc_Lambda Monad_Lambda Monad_result Ok Raise].

(** Reduces the monad and the reads whose dict is known. *)
Ltac reduce :=
  cbn [catch raise bind ret Exc_Lambda Monad_Lambda Monad_result Ok Raise
       method_get subscript negb app fst snd eq_str String.eqb Ascii.eqb
       Bool.eqb].

(** Splits a run on every read and every answer it depends on. *)
Ltac split_paths :=
  repeat match goal with
    | |- context [match ?x with _ => _ end] =>
        lazymatch x with
        | context [match _ with _ => _ end] => fail
        | _ => destruct x eqn:?; reduce
        end
    end.

(** ** Reading the event *)

Lemma getitem_Some d k v : lookup k d = Some v -> getitem d k = inr v.
Proof. unfold getitem. now intros ->. Qed.

Lemma getitem_None d k : lookup k d = None -> getitem d k = inl (KeyError k).
Proof. unfold getitem. now intros ->. Qed.

Lemma get_Some d k v dflt : lookup k d = Some v -> get d k dflt = v.
Proof. unfold get. now intros ->. Qed.

Lemma flag_default rp p : truthy (get rp p (VBool false)) = flag rp p.
Proof. unfold flag, get. now destruct (lookup p rp). Qed.

Lemma eq_str_false v s : v <> VStr s -> eq_str v s = false.
Proof.
  destruct v; simpl; trivial.
  intros H. destruct (String.eqb_spec s0 s); [subst; now elim H | reflexivity].
Qed.

(** What [event.get("ResourceProperties", {})] gives when the event holds
    the properties. *)
Lemma properties_of_lookup event rp :
  lookup "ResourceProperties" event = Some (VDict rp) ->
  get event "ResourceProperties" (VDict []) = VDict rp.
Proof. apply get_Some. Qed.

(** ** The dispatch *)

Section Dispatch.

Variable rt : runtime.
Variable event : dict.

Lemma try_create t :
  lookup "RequestType" event = Some (VStr "Create") ->
  lambda_handler_try rt event t = handle_create rt event t.
Proof.
  intros H. unfold lambda_handler_try, lift. cbn.
  now rewrite (getitem_Some _ _ _ H).
Qed.

Lemma try_update t :
  lookup "RequestType" event = Some (VStr "Update") ->
  lambda_handler_try rt event t = handle_update rt event t.
Proof.
  intros H. unfold lambda_handler_try, lift. cbn.
  now rewrite (getitem_Some _ _ _ H).
Qed.

Lemma try_delete t :
  lookup "RequestType" event = Some (VStr "Delete") ->
  lambda_handler_try rt event t = handle_delete rt event t.
Proof.
  intros H. unfold lambda_handler_try, lift. cbn.
  now rewrite (getitem_Some _ _ _ H).
Qed.

(** The [try] block returned: the handler returns the same. *)
Lemma handler_returns t t' :
  lambda_handler_try rt event t = (inr tt, t') ->
  lambda_handler rt event t = (inr tt, t').
Proof. intros H. unfold lambda_handler. cbn [catch Exc_Lambda]. now rewrite H. Qed.

(** The [try] block raised: the handler reports, then raises again, unless
    the report itself raises. *)
Lemma handler_raises t t' e :
  lambda_handler_try rt event t = (inl e, t') ->
  lambda_handler rt event t =
    let fault := Report FAILED (str_exn e) VNone in
    let sent := cfnresponse_send rt event fault in
    (match sent with inl e' => inl e' | inr _ => inl e end,
     (t' ++ [Send fault sent])%list).
Proof.
  intros H. unfold lambda_handler. cbn [catch Exc_Lambda]. rewrite H.
  unfold send. cbn. now destruct (cfnresponse_send rt event _).
Qed.

End Dispatch.

(** ** The normal paths *)

#[local] Arguments String.append : simpl never.

Section Paths.

Variable rt : runtime.
Variable event : dict.

(** What [get_cfn_env_var_overrides] returns when it returns. *)
Lemma overrides_shape env :
  get_cfn_env_var_overrides rt event = inr env ->
  exists request_type rp,
    lookup "RequestType" event = Some request_type /\
    get event "ResourceProperties" (VDict []) = VDict rp /\
    if flag rp "CodeBuildCallback" then
      exists logical_resource_id request_id stack_id response_url,
        lookup "LogicalResourceId" event = Some logical_resource_id /\
        lookup "RequestId" event = Some request_id /\
        lookup "StackId" event = Some stack_id /\
        lookup "ResponseURL" event = Some response_url /\
        env =
          [EnvVar "CFN_EVENT_TYPE" "PLAINTEXT" request_type;
           EnvVar "CFN_EVENT_DATA" "PLAINTEXT"
             (VStr (json_dumps rt (VDict [
                ("LogicalResourceId", logical_resource_id);
                ("RequestId", request_id);
                ("StackId", stack_id);
                ("NoEcho", get rp "NoEcho" (VBool false));
                ("Data", VDict [])])));
           EnvVar "CFN_EVENT_RESPONSE_URL" "PLAINTEXT" response_url]
    else env = [EnvVar "CFN_EVENT_TYPE" "PLAINTEXT" request_type].
Proof.
  unfold get_cfn_env_var_overrides, getitem.
  destruct (lookup "RequestType" event) as [request_type|] eqn:Hrt;
    reduce; [|now intros [=]].
  destruct (get event "ResourceProperties" (VDict [])) as [| | | | |rp] eqn:Hget;
    reduce; try (now intros [=]).
  fold (flag rp "CodeBuildCallback").
  destruct (flag rp "CodeBuildCallback") eqn:Hflag.
  - destruct (lookup "LogicalResourceId" event) as [lid|]; reduce; [|now intros [=]].
    destruct (lookup "RequestId" event) as [rid|]; reduce; [|now intros [=]].
    destruct (lookup "StackId" event) as [sid|]; reduce; [|now intros [=]].
    assert (Hrp : lookup "ResourceProperties" event = Some (VDict rp)).
    { unfold get in Hget. destruct (lookup "ResourceProperties" event).
      - now subst.
      - injection Hget as <-. discriminate Hflag. }
    rewrite Hrp. reduce.
    destruct (lookup "ResponseURL" event) as [url|]; reduce; [|now intros [=]].
    intros [= <-]. exists request_type, rp. rewrite Hflag.
    repeat split. now exists lid, rid, sid, url.
  - intros [= <-]. exists request_type, rp. now rewrite Hflag.
Qed.

(** The overrides of an event that does not ask for the callback. *)
Lemma overrides_plain request_type rp :
  lookup "RequestType" event = Some request_type ->
  get event "ResourceProperties" (VDict []) = VDict rp ->
  flag rp "CodeBuildCallback" = false ->
  get_cfn_env_var_overrides rt event =
    inr [EnvVar "CFN_EVENT_TYPE" "PLAINTEXT" request_type].
Proof.
  intros Hrt Hrp Hflag. unfold get_cfn_env_var_overrides.
  rewrite (getitem_Some _ _ _ Hrt), Hrp. reduce.
  fold (flag rp "CodeBuildCallback"). now rewrite Hflag.
Qed.

End Paths.

(** ** Every path at once *)

Section Invariants.

Variable rt : runtime.
Variable event : dict.

(** A build is only ever started with the overrides of the event. *)
Lemma builds_use_overrides p env o :
  In (StartBuild p env o) (snd (lambda_handler rt event [])) ->
  get_cfn_env_var_overrides rt event = inr env.
Proof.
  run_handler. reduce. split_paths.
  all: cbn [In]; intros H; repeat destruct H as [H|H]; try discriminate H;
    try (now injection H as <- <- <-); try contradiction.
Qed.

(** When the [try] block raises, no report of it was accepted. *)
Lemma raised_unreported e t :
  lambda_handler_try rt event [] = (inl e, t) -> reports_sent t = [].
Proof.
  run_handler. reduce. split_paths.
  all: intros [= H <-]; try discriminate H; try injection H as ->;
    cbn [app reports_sent flat_map]; rewrite ?H; reflexivity.
Qed.

End Invariants.

(** ** The lifecycle events, one by one *)

Section Lifecycle.

Variable rt : runtime.
Variable event : dict.

(** C2, as the handler words the reason: for a [Create] event whose
    [CodeBuildCallback] is absent or false, with a [ProjectName], when the
    build starts and the report is accepted: one build is started, with
    the override [CFN_EVENT_TYPE=Create] alone, then one report is sent,
    [SUCCESS], with reason ["Started CodeBuild #<number>"] for the build
    number of the response and the build's [arn] as physical resource id;
    the handler returns. *)
Theorem create_reports rp project_name response build number arn :
  lookup "RequestType" event = Some (VStr "Create") ->
  lookup "ResourceProperties" event = Some (VDict rp) ->
  flag rp "CodeBuildCallback" = false ->
  lookup "ProjectName" rp = Some project_name ->
  let env := [EnvVar "CFN_EVENT_TYPE" "PLAINTEXT" (VStr "Create")] in
  let started := Report SUCCESS ("Started CodeBuild #" ++ str rt number) arn in
  codebuild_start_build rt project_name env = Ok response ->
  subscript response "build" = Ok build ->
  subscript build "buildNumber" = Ok number ->
  subscript build "arn" = Ok arn ->
  cfnresponse_send rt event started = Ok tt ->
  lambda_handler rt event [] =
    (Ok tt, [StartBuild project_name env (Ok response); Send started (Ok tt)]) /\
  builds_started (snd (lambda_handler rt event [])) = [(project_name, env)] /\
  reports_sent (snd (lambda_handler rt event [])) = [started].
Proof.
  intros Hrt Hrp Hflag Hname env started Hbuild Hb Hn Ha Hsend.
  assert (H : lambda_handler rt event [] =
                (Ok tt, [StartBuild project_name env (Ok response);
                         Send started (Ok tt)])).
  { apply handler_returns. rewrite (try_create _ _ _ Hrt).
    run_handler.
    rewrite (overrides_plain rt event _ rp Hrt (properties_of_lookup _ _ Hrp) Hflag).
    rewrite (getitem_Some _ _ _ Hrp). reduce.
    rewrite (getitem_Some _ _ _ Hname). fold env. rewrite Hbuild. reduce.
    fold (flag rp "CodeBuildCallback"). rewrite Hflag. reduce.
    rewrite Hb. reduce. rewrite Hn, Ha. reduce.
    fold started. now rewrite Hsend. }
  rewrite H. now repeat split.
Qed.

(** C8: for a [Create] event whose [CodeBuildCallback] is true, with a
    [ProjectName] and the fields the overrides need, when the build
    starts: the build is started and the handler returns without a call to
    [cfnresponse.send]. *)
Theorem create_delegates rp project_name env response :
  lookup "RequestType" event = Some (VStr "Create") ->
  lookup "ResourceProperties" event = Some (VDict rp) ->
  flag rp "CodeBuildCallback" = true ->
  lookup "ProjectName" rp = Some project_name ->
  get_cfn_env_var_overrides rt event = Ok env ->
  codebuild_start_build rt project_name env = Ok response ->
  lambda_handler rt event [] =
    (Ok tt, [StartBuild project_name env (Ok response)]) /\
  reports_sent (snd (lambda_handler rt event [])) = [].
Proof.
  intros Hrt Hrp Hflag Hname Henv Hbuild.
  assert (H : lambda_handler rt event [] =
                (Ok tt, [StartBuild project_name env (Ok response)])).
  { apply handler_returns. rewrite (try_create _ _ _ Hrt).
    run_handler. rewrite Henv, (getitem_Some _ _ _ Hrp). reduce.
    rewrite (getitem_Some _ _ _ Hname), Hbuild. reduce.
    fold (flag rp "CodeBuildCallback"). now rewrite Hflag. }
  split; [exact H | now rewrite H].
Qed.

(** C3: for an [Update] event whose [IgnoreUpdate] is true, with a
    [PhysicalResourceId], when the report is accepted: no build is
    started and one report is sent, [SUCCESS], with reason
    ["Update is a no-op"] and the event's [PhysicalResourceId]. *)
Theorem update_ignored rp physical_resource_id :
  lookup "RequestType" event = Some (VStr "Update") ->
  get event "ResourceProperties" (VDict []) = VDict rp ->
  flag rp "IgnoreUpdate" = true ->
  lookup "PhysicalResourceId" event = Some physical_resource_id ->
  let noop := Report SUCCESS "Update is a no-op" physical_resource_id in
  cfnresponse_send rt event noop = Ok tt ->
  lambda_handler rt event [] = (Ok tt, [Send noop (Ok tt)]) /\
  builds_started (snd (lambda_handler rt event [])) = [] /\
  reports_sent (snd (lambda_handler rt event [])) = [noop].
Proof.
  intros Hrt Hrp Hflag Hpid noop Hsend.
  assert (H : lambda_handler rt event [] = (Ok tt, [Send noop (Ok tt)])).
  { apply handler_returns. rewrite (try_update _ _ _ Hrt).
    run_handler. rewrite Hrp. reduce.
    rewrite flag_default, Hflag. reduce.
    rewrite (getitem_Some _ _ _ Hpid). fold noop. now rewrite Hsend. }
  rewrite H. now repeat split.
Qed.

(** C5: for an event whose [RequestType] is none of [Create], [Update]
    and [Delete], when the report is accepted: no build is started and one
    report is sent, [FAILED], whose reason is
    ["Unsupported CFN RequestType '<type>'"]. *)
Theorem unsupported_request_type request_type :
  lookup "RequestType" event = Some request_type ->
  request_type <> VStr "Create" ->
  request_type <> VStr "Update" ->
  request_type <> VStr "Delete" ->
  let unsupported :=
    Report FAILED
      ("Unsupported CFN RequestType '" ++ str rt request_type ++ "'") VNone in
  cfnresponse_send rt event unsupported = Ok tt ->
  lambda_handler rt event [] = (Ok tt, [Send unsupported (Ok tt)]) /\
  builds_started (snd (lambda_handler rt event [])) = [] /\
  reports_sent (snd (lambda_handler rt event [])) = [unsupported].
Proof.
  intros Hrt Hc Hu Hd unsupported Hsend.
  assert (H : lambda_handler rt event [] = (Ok tt, [Send unsupported (Ok tt)])).
  { apply handler_returns. unfold lambda_handler_try, lift, send.
    cbn [bind ret Monad_Lambda]. rewrite (getitem_Some _ _ _ Hrt).
    rewrite (eq_str_false _ _ Hc), (eq_str_false _ _ Hu), (eq_str_false _ _ Hd).
    fold unsupported. now rewrite Hsend. }
  rewrite H. now repeat split.
Qed.

(** C4: for a [Delete] event.  When [BuildOnDelete] is absent or false,
    with a [PhysicalResourceId] and the report accepted: no build is
    started and one report is sent, [SUCCESS], with reason
    ["Delete is a no-op"] and the event's [PhysicalResourceId].  When
    [BuildOnDelete] is true, with a [ProjectName] and the build starting:
    the build is started, and the report [SUCCESS] with reason
    ["Deletion build initiated"] is sent exactly when [CodeBuildCallback]
    is false (the event then has a [PhysicalResourceId] and the report is
    accepted); otherwise nothing is sent. *)
Theorem delete_event_handled rp :
  lookup "RequestType" event = Some (VStr "Delete") ->
  get event "ResourceProperties" (VDict []) = VDict rp ->
  (flag rp "BuildOnDelete" = false ->
   forall physical_resource_id,
     lookup "PhysicalResourceId" event = Some physical_resource_id ->
     let noop := Report SUCCESS "Delete is a no-op" physical_resource_id in
     cfnresponse_send rt event noop = Ok tt ->
     lambda_handler rt event [] = (Ok tt, [Send noop (Ok tt)]) /\
     builds_started (snd (lambda_handler rt event [])) = [] /\
     reports_sent (snd (lambda_handler rt event [])) = [noop]) /\
  (flag rp "BuildOnDelete" = true ->
   forall project_name env response,
     lookup "ProjectName" rp = Some project_name ->
     get_cfn_env_var_overrides rt event = Ok env ->
     codebuild_start_build rt project_name env = Ok response ->
     let started := StartBuild project_name env (Ok response) in
     (flag rp "CodeBuildCallback" = false ->
      forall physical_resource_id,
        lookup "PhysicalResourceId" event = Some physical_resource_id ->
        let initiated :=
          Report SUCCESS "Deletion build initiated" physical_resource_id in
        cfnresponse_send rt event initiated = Ok tt ->
        lambda_handler rt event [] = (Ok tt, [started; Send initiated (Ok tt)]) /\
        builds_started (snd (lambda_handler rt event [])) = [(project_name, env)] /\
        reports_sent (snd (lambda_handler rt event [])) = [initiated]) /\
     (flag rp "CodeBuildCallback" = true ->
      lambda_handler rt event [] = (Ok tt, [started]) /\
      builds_started (snd (lambda_handler rt event [])) = [(project_name, env)] /\
      reports_sent (snd (lambda_handler rt event [])) = [])).
Proof.
  intros Hrt Hrp. split.
  - intros Hflag pid Hpid noop Hsend.
    assert (H : lambda_handler rt event [] = (Ok tt, [Send noop (Ok tt)])).
    { apply handler_returns. rewrite (try_delete _ _ _ Hrt).
      run_handler. rewrite Hrp. reduce.
      rewrite flag_default, Hflag. reduce.
      rewrite (getitem_Some _ _ _ Hpid). fold noop. now rewrite Hsend. }
    rewrite H. now repeat split.
  - intros Hflag project_name env response Hname Henv Hbuild started.
    split.
    + intros Hcb pid Hpid initiated Hsend.
      assert (H : lambda_handler rt event [] =
                    (Ok tt, [started; Send initiated (Ok tt)])).
      { apply handler_returns. rewrite (try_delete _ _ _ Hrt).
        run_handler. rewrite Hrp. reduce.
        rewrite flag_default, Hflag, Henv. reduce.
        rewrite (getitem_Some _ _ _ Hname), Hbuild. reduce.
        fold (flag rp "CodeBuildCallback"). rewrite Hcb. reduce.
        rewrite (getitem_Some _ _ _ Hpid). fold initiated. now rewrite Hsend. }
      rewrite H. now repeat split.
    + intros Hcb.
      assert (H : lambda_handler rt event [] = (Ok tt, [started])).
      { apply handler_returns. rewrite (try_delete _ _ _ Hrt).
        run_handler. rewrite Hrp. reduce.
        rewrite flag_default, Hflag, Henv. reduce.
        rewrite (getitem_Some _ _ _ Hname), Hbuild. reduce.
        fold (flag rp "CodeBuildCallback"). now rewrite Hcb. }
      rewrite H. now repeat split.
Qed.

(** C9, as the handler guards its report: for a [Delete] event without
    [PhysicalResourceId], when the handler comes to build its report (the
    delete is a no-op, or the deletion build has started and
    [CodeBuildCallback] is false), the lookup raises [KeyError]: the
    handler sends the [FAILED] report of that fault and raises it again.
    When [BuildOnDelete] and [CodeBuildCallback] are both true, the
    handler builds no report: it starts the build and returns, and nothing
    is sent.  No [SUCCESS] report is sent, whatever the flags and the
    collaborators. *)
Theorem delete_without_physical_id rp :
  lookup "RequestType" event = Some (VStr "Delete") ->
  lookup "PhysicalResourceId" event = None ->
  get event "ResourceProperties" (VDict []) = VDict rp ->
  let fault := Report FAILED "'PhysicalResourceId'" VNone in
  cfnresponse_send rt event fault = Ok tt ->
  (flag rp "BuildOnDelete" = false ->
   lambda_handler rt event [] =
     (Raise (KeyError "PhysicalResourceId"), [Send fault (Ok tt)])) /\
  (flag rp "BuildOnDelete" = true ->
   flag rp "CodeBuildCallback" = false ->
   forall project_name env response,
     lookup "ProjectName" rp = Some project_name ->
     get_cfn_env_var_overrides rt event = Ok env ->
     codebuild_start_build rt project_name env = Ok response ->
     lambda_handler rt event [] =
       (Raise (KeyError "PhysicalResourceId"),
        [StartBuild project_name env (Ok response); Send fault (Ok tt)])) /\
  (flag rp "BuildOnDelete" = true ->
   flag rp "CodeBuildCallback" = true ->
   forall project_name env response,
     lookup "ProjectName" rp = Some project_name ->
     get_cfn_env_var_overrides rt event = Ok env ->
     codebuild_start_build rt project_name env = Ok response ->
     lambda_handler rt event [] =
       (Ok tt, [StartBuild project_name env (Ok response)])) /\
  (forall r, In r (reports_sent (snd (lambda_handler rt event []))) ->
             Status r = FAILED).
Proof.
  intros Hrt Hpid Hrp fault Hsend. split; [|split; [|split]].
  - intros Hflag.
    rewrite (handler_raises rt event [] [] (KeyError "PhysicalResourceId")).
    + cbn [str_exn]. change ("'" ++ "PhysicalResourceId" ++ "'")
        with "'PhysicalResourceId'". fold fault. now rewrite Hsend.
    + rewrite (try_delete _ _ _ Hrt). run_handler. rewrite Hrp. reduce.
      rewrite flag_default, Hflag. reduce.
      now rewrite (getitem_None _ _ Hpid).
  - intros Hflag Hcb project_name env response Hname Henv Hbuild.
    rewrite (handler_raises rt event []
               [StartBuild project_name env (Ok response)]
               (KeyError "PhysicalResourceId")).
    + cbn [str_exn]. change ("'" ++ "PhysicalResourceId" ++ "'")
        with "'PhysicalResourceId'". fold fault. now rewrite Hsend.
    + rewrite (try_delete _ _ _ Hrt). run_handler. rewrite Hrp. reduce.
      rewrite flag_default, Hflag, Henv. reduce.
      rewrite (getitem_Some _ _ _ Hname), Hbuild. reduce.
      fold (flag rp "CodeBuildCallback"). rewrite Hcb. reduce.
      now rewrite (getitem_None _ _ Hpid).
  - intros Hflag Hcb project_name env response Hname Henv Hbuild.
    apply handler_returns. rewrite (try_delete _ _ _ Hrt).
    run_handler. rewrite Hrp. reduce.
    rewrite flag_default, Hflag, Henv. reduce.
    rewrite (getitem_Some _ _ _ Hname), Hbuild. reduce.
    fold (flag rp "CodeBuildCallback"). now rewrite Hcb.
  - unfold lambda_handler. cbn [catch Exc_Lambda].
    rewrite (try_delete _ _ _ Hrt).
    unfold handle_delete, send, start_build, lift. reduce.
    rewrite (getitem_None _ _ Hpid). split_paths.
    all: cbn [reports_sent flat_map app In]; intros r H;
      repeat destruct H as [H|H]; try contradiction; now subst r.
Qed.

(** C1, what the handler does where the claim fails: for an [Update]
    event whose [IgnoreUpdate] is false and whose [CodeBuildCallback] is
    true, written with a [ProjectName] and a [PhysicalResourceId] and
    without the key ["CodeBuildCalback"], when the build starts and the
    report is accepted: the build is started with the callback overrides
    and the handler still sends one [SUCCESS] report. *)
Theorem update_reports_despite_callback
    rp project_name env response build number physical_resource_id :
  lookup "RequestType" event = Some (VStr "Update") ->
  get event "ResourceProperties" (VDict []) = VDict rp ->
  flag rp "IgnoreUpdate" = false ->
  flag rp "CodeBuildCallback" = true ->
  lookup "CodeBuildCalback" rp = None ->
  lookup "ProjectName" rp = Some project_name ->
  get_cfn_env_var_overrides rt event = Ok env ->
  codebuild_start_build rt project_name env = Ok response ->
  subscript response "build" = Ok build ->
  subscript build "buildNumber" = Ok number ->
  lookup "PhysicalResourceId" event = Some physical_resource_id ->
  let started :=
    Report SUCCESS ("Started CodeBuild #" ++ str rt number)
      physical_resource_id in
  cfnresponse_send rt event started = Ok tt ->
  In (EnvVar "CFN_EVENT_RESPONSE_URL" "PLAINTEXT"
        (get event "ResponseURL" VNone)) env /\
  lambda_handler rt event [] =
    (Ok tt, [StartBuild project_name env (Ok response); Send started (Ok tt)]) /\
  reports_sent (snd (lambda_handler rt event [])) = [started].
Proof.
  intros Hrt Hrp Hignore Hcb Htypo Hname Henv Hbuild Hb Hn Hpid started Hsend.
  split.
  - destruct (overrides_shape rt event env Henv) as (rq & rp' & _ & Hrp' & Hshape).
    rewrite Hrp in Hrp'. injection Hrp' as <-. rewrite Hcb in Hshape.
    destruct Hshape as (lid & rid & sid & url & _ & _ & _ & Hurl & ->).
    rewrite (get_Some _ _ _ _ Hurl). cbn [In]. auto.
  - assert (H : lambda_handler rt event [] =
                  (Ok tt, [StartBuild project_name env (Ok response);
                           Send started (Ok tt)])).
    { apply handler_returns. rewrite (try_update _ _ _ Hrt).
      run_handler. rewrite Hrp. reduce.
      rewrite flag_default, Hignore, Henv. reduce.
      rewrite (getitem_Some _ _ _ Hname), Hbuild. reduce.
      unfold get at 1. rewrite Htypo. cbn [truthy]. rewrite Hb. reduce.
      rewrite Hn. reduce.
      rewrite (getitem_Some _ _ _ Hpid). fold started. now rewrite Hsend. }
    rewrite H. now split.
Qed.

(** C6: when the [try] block raises a fault and the [FAILED] report of it
    is accepted, the handler sends that report, with the fault's [str] as
    reason, after whatever the block did, and raises the same fault; it is
    the only report sent. *)
Theorem fault_reported_and_raised e t :
  lambda_handler_try rt event [] = (Raise e, t) ->
  let fault := Report FAILED (str_exn e) VNone in
  cfnresponse_send rt event fault = Ok tt ->
  lambda_handler rt event [] = (Raise e, (t ++ [Send fault (Ok tt)])%list) /\
  reports_sent (snd (lambda_handler rt event [])) = [fault].
Proof.
  intros Htry fault Hsend.
  assert (H : lambda_handler rt event [] =
                (Raise e, (t ++ [Send fault (Ok tt)])%list)).
  { rewrite (handler_raises rt event [] t e Htry). cbv zeta. fold fault.
    now rewrite Hsend. }
  rewrite H. split; [reflexivity|].
  cbn [snd]. unfold reports_sent. rewrite flat_map_app.
  fold (reports_sent t). now rewrite (raised_unreported rt event e t Htry).
Qed.

(** C7: whenever the handler calls [start_build], the overrides begin
    with [CFN_EVENT_TYPE], the event's [RequestType]; when
    [CodeBuildCallback] is true they go on with [CFN_EVENT_DATA], the
    [json.dumps] of the dict of [LogicalResourceId], [RequestId],
    [StackId], [NoEcho] and an empty [Data], and with
    [CFN_EVENT_RESPONSE_URL], the event's [ResponseURL]; when it is not,
    [CFN_EVENT_TYPE] is the only override. *)
Theorem build_environment project_name env outcome :
  In (StartBuild project_name env outcome) (snd (lambda_handler rt event [])) ->
  exists request_type rp,
    lookup "RequestType" event = Some request_type /\
    get event "ResourceProperties" (VDict []) = VDict rp /\
    if flag rp "CodeBuildCallback" then
      exists logical_resource_id request_id stack_id response_url,
        lookup "LogicalResourceId" event = Some logical_resource_id /\
        lookup "RequestId" event = Some request_id /\
        lookup "StackId" event = Some stack_id /\
        lookup "ResponseURL" event = Some response_url /\
        env =
          [EnvVar "CFN_EVENT_TYPE" "PLAINTEXT" request_type;
           EnvVar "CFN_EVENT_DATA" "PLAINTEXT"
             (VStr (json_dumps rt (VDict [
                ("LogicalResourceId", logical_resource_id);
                ("RequestId", request_id);
                ("StackId", stack_id);
                ("NoEcho", get rp "NoEcho" (VBool false));
                ("Data", VDict [])])));
           EnvVar "CFN_EVENT_RESPONSE_URL" "PLAINTEXT" response_url]
    else env = [EnvVar "CFN_EVENT_TYPE" "PLAINTEXT" request_type].
Proof.
  intros Hin. apply overrides_shape.
  exact (builds_use_overrides rt event project_name env outcome Hin).
Qed.

End Lifecycle.

(** ** The flags are read by truthiness *)

Section Flags.

Variable rt : runtime.
Variable p : string.
Variables e1 e2 : dict.
Variables rp1 rp2 : dict.

Hypothesis p_is_flag : In p ["BuildOnDelete"; "CodeBuildCallback"; "IgnoreUpdate"].
Hypothesis same_event :
  forall k, k <> "ResourceProperties" -> lookup k e1 = lookup k e2.
Hypothesis properties1 : lookup "ResourceProperties" e1 = Some (VDict rp1).
Hypothesis properties2 : lookup "ResourceProperties" e2 = Some (VDict rp2).
Hypothesis same_properties : forall k, k <> p -> lookup k rp1 = lookup k rp2.
Hypothesis same_truth : flag rp1 p = flag rp2 p.
Hypothesis same_answer :
  forall r, cfnresponse_send rt e1 r = cfnresponse_send rt e2 r.

Lemma same_getitem k :
  k <> "ResourceProperties" -> getitem e1 k = getitem e2 k.
Proof. intros H. unfold getitem. now rewrite (same_event k H). Qed.

Lemma same_flag q : flag rp1 q = flag rp2 q.
Proof.
  destruct (string_dec q p) as [->|H]; [exact same_truth|].
  unfold flag, get. now rewrite (same_properties q H).
Qed.

Lemma same_other k :
  ~ In k ["BuildOnDelete"; "CodeBuildCallback"; "IgnoreUpdate"] ->
  lookup k rp1 = lookup k rp2.
Proof.
  intros H. apply same_properties. intros ->. now apply H.
Qed.

Lemma same_overrides :
  get_cfn_env_var_overrides rt e1 = get_cfn_env_var_overrides rt e2.
Proof.
  unfold get_cfn_env_var_overrides.
  rewrite (get_Some _ _ _ _ properties1), (get_Some _ _ _ _ properties2).
  rewrite (getitem_Some _ _ _ properties1), (getitem_Some _ _ _ properties2).
  rewrite <- !same_getitem by discriminate.
  reduce. fold (flag rp1 "CodeBuildCallback") (flag rp2 "CodeBuildCallback").
  rewrite <- same_flag.
  unfold get. rewrite <- (same_other "NoEcho"); [reflexivity|].
  cbn [In]. intros H. repeat destruct H as [H|H]; try discriminate H; exact H.
Qed.

(** Events that differ in one flag only, with the same truth value, are
    handled alike. *)
Lemma flags_by_truthiness :
  lambda_handler rt e1 [] = lambda_handler rt e2 [].
Proof.
  assert (Hname : getitem rp1 "ProjectName" = getitem rp2 "ProjectName").
  { unfold getitem. rewrite (same_other "ProjectName"); [reflexivity|].
    cbn [In]. intros H. repeat destruct H as [H|H]; try discriminate H; exact H. }
  assert (Htypo : get rp1 "CodeBuildCalback" VNone = get rp2 "CodeBuildCalback" VNone).
  { unfold get. rewrite (same_other "CodeBuildCalback"); [reflexivity|].
    cbn [In]. intros H. repeat destruct H as [H|H]; try discriminate H; exact H. }
  run_handler.
  rewrite <- same_overrides.
  rewrite !(get_Some _ _ _ _ properties1), !(get_Some _ _ _ _ properties2).
  rewrite !(getitem_Some _ _ _ properties1), !(getitem_Some _ _ _ properties2).
  rewrite <- !same_getitem by discriminate.
  reduce. rewrite !flag_default.
  fold (flag rp1 "CodeBuildCallback") (flag rp2 "CodeBuildCallback").
  rewrite <- !same_flag, <- Hname, <- Htypo.
  repeat (rewrite <- ?same_answer;
          match goal with
          | |- context [match ?x with _ => _ end] =>
              lazymatch x with
              | context [match _ with _ => _ end] => fail
              | _ => destruct x eqn:?; reduce
              end
          end).
  all: rewrite <- ?same_answer; reflexivity.
Qed.

End Flags.

(** C10: a flag among [BuildOnDelete], [CodeBuildCallback] and
    [IgnoreUpdate] counts by the truthiness of its raw value.  Take two
    events that differ in that property only, to which the response
    endpoint answers alike.  If the first holds a non-empty string for it,
    be it ["false"], and the second holds [True], the handler does the same
    on both; if the first leaves it out or holds the empty string, [0] or
    [False], and the second holds [False], the handler does the same on
    both. *)
Theorem flags_read_by_truthiness (rt : runtime) (p : string) (e1 e2 : dict) :
  In p ["BuildOnDelete"; "CodeBuildCallback"; "IgnoreUpdate"] ->
  differ_only_in p e1 e2 ->
  (forall r, cfnresponse_send rt e1 r = cfnresponse_send rt e2 r) ->
  (forall s, s <> EmptyString ->
             raw e1 p = Some (VStr s) ->
             raw e2 p = Some (VBool true) ->
             lambda_handler rt e1 [] = lambda_handler rt e2 []) /\
  (In (raw e1 p)
      [None; Some (VStr EmptyString); Some (VInt 0); Some (VBool false)] ->
   raw e2 p = Some (VBool false) ->
   lambda_handler rt e1 [] = lambda_handler rt e2 []).
Proof.
  intros Hp (Hevent & rp1 & rp2 & H1 & H2 & Hrest) Hsend.
  unfold raw. rewrite H1, H2. split.
  - intros s Hs Hraw1 Hraw2.
    apply (flags_by_truthiness rt p e1 e2 rp1 rp2); trivial.
    unfold flag, get. rewrite Hraw1, Hraw2. cbn [truthy].
    destruct (String.eqb_spec s EmptyString); [contradiction | reflexivity].
  - intros Hraw1 Hraw2.
    apply (flags_by_truthiness rt p e1 e2 rp1 rp2); trivial.
    unfold flag, get. rewrite Hraw2. cbn [In] in Hraw1.
    destruct Hraw1 as [<-|[<-|[<-|[<-|[]]]]]; reflexivity.
Qed.

(** ** The theorems at work on concrete events *)

Lemma create_reports_witness :
  let env := [EnvVar "CFN_EVENT_TYPE" "PLAINTEXT" (VStr "Create")] in
  let started := Report SUCCESS "Started CodeBuild #7" (VStr arn1) in
  lambda_handler rt_ok create_event [] =
    (Ok tt, [StartBuild (VStr "p1") env (Ok (build_response arn1 7));
             Send started (Ok tt)]) /\
  builds_started (snd (lambda_handler rt_ok create_event [])) = [(VStr "p1", env)] /\
  reports_sent (snd (lambda_handler rt_ok create_event [])) = [started].
Proof.
  apply (create_reports rt_ok create_event [("ProjectName", VStr "p1")]
           (VStr "p1") (build_response arn1 7)
           (VDict [("arn", VStr arn1); ("buildNumber", VInt 7)])
           (VInt 7) (VStr arn1)); reflexivity.
Defined.

(** The report of a [Create] does not read ["Started build #7"]. *)
Lemma create_reason_counterexample :
  reports_sent (snd (lambda_handler rt_ok create_event [])) <>
    [Report SUCCESS ("Started build #" ++ str rt_ok (VInt 7)) (VStr arn1)].
Proof. vm_compute. discriminate. Qed.

Lemma create_delegates_witness :
  exists env,
    lambda_handler rt_ok create_callback_event [] =
      (Ok tt, [StartBuild (VStr "p1") env (Ok (build_response arn1 7))]) /\
    reports_sent (snd (lambda_handler rt_ok create_callback_event [])) = [].
Proof.
  eexists.
  apply (create_delegates rt_ok create_callback_event
           [("ProjectName", VStr "p1"); ("CodeBuildCallback", VStr "true")]
           (VStr "p1")); reflexivity.
Defined.

Lemma update_ignored_witness :
  let noop := Report SUCCESS "Update is a no-op" (VStr "X") in
  lambda_handler rt_ok update_ignored_event [] = (Ok tt, [Send noop (Ok tt)]) /\
  builds_started (snd (lambda_handler rt_ok update_ignored_event [])) = [] /\
  reports_sent (snd (lambda_handler rt_ok update_ignored_event [])) = [noop].
Proof.
  apply (update_ignored rt_ok update_ignored_event
           [("ProjectName", VStr "p1"); ("IgnoreUpdate", VBool true)]
           (VStr "X")); reflexivity.
Defined.

Lemma unsupported_request_type_witness :
  let unsupported :=
    Report FAILED "Unsupported CFN RequestType 'Frob'" VNone in
  lambda_handler rt_ok unsupported_event [] = (Ok tt, [Send unsupported (Ok tt)]) /\
  builds_started (snd (lambda_handler rt_ok unsupported_event [])) = [] /\
  reports_sent (snd (lambda_handler rt_ok unsupported_event [])) = [unsupported].
Proof.
  apply (unsupported_request_type rt_ok unsupported_event (VStr "Frob"));
    (reflexivity || discriminate).
Defined.

Lemma delete_event_handled_witness :
  let noop := Report SUCCESS "Delete is a no-op" (VStr "X") in
  let initiated := Report SUCCESS "Deletion build initiated" (VStr "X") in
  let env := [EnvVar "CFN_EVENT_TYPE" "PLAINTEXT" (VStr "Delete")] in
  reports_sent
    (snd (lambda_handler rt_ok
            (delete_event [("BuildOnDelete", VBool false)]) [])) = [noop] /\
  builds_started
    (snd (lambda_handler rt_ok
            (delete_event [("BuildOnDelete", VBool false)]) [])) = [] /\
  reports_sent
    (snd (lambda_handler rt_ok
            (delete_event [("BuildOnDelete", VBool true)]) [])) = [initiated] /\
  builds_started
    (snd (lambda_handler rt_ok
            (delete_event [("BuildOnDelete", VBool true)]) [])) =
    [(VStr "p1", env)] /\
  exists env',
    lambda_handler rt_ok
      (delete_event [("BuildOnDelete", VBool true);
                     ("CodeBuildCallback", VBool true)]) [] =
      (Ok tt, [StartBuild (VStr "p1") env' (Ok (build_response arn1 7))]).
Proof.
  intros noop initiated env.
  pose proof (delete_event_handled rt_ok
                (delete_event [("BuildOnDelete", VBool false)])
                [("ProjectName", VStr "p1"); ("BuildOnDelete", VBool false)]
                eq_refl eq_refl) as [Hno _].
  pose proof (delete_event_handled rt_ok
                (delete_event [("BuildOnDelete", VBool true)])
                [("ProjectName", VStr "p1"); ("BuildOnDelete", VBool true)]
                eq_refl eq_refl) as [_ Hyes].
  pose proof (delete_event_handled rt_ok
                (delete_event [("BuildOnDelete", VBool true);
                               ("CodeBuildCallback", VBool true)])
                [("ProjectName", VStr "p1"); ("BuildOnDelete", VBool true);
                 ("CodeBuildCallback", VBool true)]
                eq_refl eq_refl) as [_ Hcb].
  destruct (Hno eq_refl (VStr "X") eq_refl eq_refl) as (_ & Hb1 & Hr1).
  destruct (Hyes eq_refl (VStr "p1") env (build_response arn1 7)
              eq_refl eq_refl eq_refl) as [Hsent _].
  destruct (Hsent eq_refl (VStr "X") eq_refl eq_refl) as (_ & Hb2 & Hr2).
  destruct (Hcb eq_refl (VStr "p1") _ (build_response arn1 7)
              eq_refl eq_refl eq_refl) as [_ Hnone].
  destruct (Hnone eq_refl) as (Hrun & _).
  repeat split; trivial. eexists. exact Hrun.
Defined.

Lemma delete_without_physical_id_witness :
  let fault := Report FAILED "'PhysicalResourceId'" VNone in
  let env := [EnvVar "CFN_EVENT_TYPE" "PLAINTEXT" (VStr "Delete")] in
  lambda_handler rt_ok (delete_without_id [("BuildOnDelete", VBool false)]) [] =
    (Raise (KeyError "PhysicalResourceId"), [Send fault (Ok tt)]) /\
  lambda_handler rt_ok (delete_without_id [("BuildOnDelete", VBool true)]) [] =
    (Raise (KeyError "PhysicalResourceId"),
     [StartBuild (VStr "p1") env (Ok (build_response arn1 7));
      Send fault (Ok tt)]) /\
  exists env',
    lambda_handler rt_ok
      (delete_without_id [("BuildOnDelete", VBool true);
                          ("CodeBuildCallback", VBool true)]) [] =
      (Ok tt, [StartBuild (VStr "p1") env' (Ok (build_response arn1 7))]).
Proof.
  intros fault env. split; [|split].
  - apply (delete_without_physical_id rt_ok
             (delete_without_id [("BuildOnDelete", VBool false)])
             [("ProjectName", VStr "p1"); ("BuildOnDelete", VBool false)]);
      reflexivity.
  - apply (delete_without_physical_id rt_ok
             (delete_without_id [("BuildOnDelete", VBool true)])
             [("ProjectName", VStr "p1"); ("BuildOnDelete", VBool true)]);
      reflexivity.
  - eexists.
    apply (delete_without_physical_id rt_ok
             (delete_without_id [("BuildOnDelete", VBool true);
                                 ("CodeBuildCallback", VBool true)])
             [("ProjectName", VStr "p1"); ("BuildOnDelete", VBool true);
              ("CodeBuildCallback", VBool true)]);
      reflexivity.
Defined.

(** A [Delete] event without [PhysicalResourceId] whose [BuildOnDelete] and
    [CodeBuildCallback] are both true: the handler raises no fault and
    sends no report, [FAILED] or other. *)
Lemma delete_delegated_counterexample :
  let event :=
    delete_without_id [("BuildOnDelete", VBool true);
                       ("CodeBuildCallback", VBool true)] in
  lookup "RequestType" event = Some (VStr "Delete") /\
  lookup "PhysicalResourceId" event = None /\
  fst (lambda_handler rt_ok event []) = Ok tt /\
  (forall e, fst (lambda_handler rt_ok event []) <> Raise e) /\
  reports_sent (snd (lambda_handler rt_ok event [])) = [].
Proof.
  cbv zeta. repeat split; try reflexivity.
  intros e. vm_compute. discriminate.
Qed.

Lemma update_reports_despite_callback_witness :
  exists env,
    let started := Report SUCCESS "Started CodeBuild #7" (VStr "X") in
    In (EnvVar "CFN_EVENT_RESPONSE_URL" "PLAINTEXT"
          (VStr "https://cfn.example/response")) env /\
    lambda_handler rt_ok update_callback_event [] =
      (Ok tt, [StartBuild (VStr "p1") env (Ok (build_response arn1 7));
               Send started (Ok tt)]) /\
    reports_sent (snd (lambda_handler rt_ok update_callback_event [])) = [started].
Proof.
  eexists.
  apply (update_reports_despite_callback rt_ok update_callback_event
           [("ProjectName", VStr "p1"); ("CodeBuildCallback", VBool true)]
           (VStr "p1") _ (build_response arn1 7)
           (VDict [("arn", VStr arn1); ("buildNumber", VInt 7)])
           (VInt 7) (VStr "X")); reflexivity.
Defined.

(** A missing [ProjectName] is such a fault. *)
Example missing_project_name :
  lambda_handler rt_ok (event_of "Create" [] []) [] =
    (Raise (KeyError "ProjectName"),
     [Send (Report FAILED "'ProjectName'" VNone) (Ok tt)]).
Proof. reflexivity. Qed.

Lemma fault_reported_and_raised_witness :
  let refused :=
    ServiceError "An error occurred (ResourceNotFoundException) when calling the StartBuild operation" in
  let fault := Report FAILED (str_exn refused) VNone in
  lambda_handler rt_no_build create_event [] =
    (Raise refused,
     [StartBuild (VStr "p1")
        [EnvVar "CFN_EVENT_TYPE" "PLAINTEXT" (VStr "Create")] (Raise refused);
      Send fault (Ok tt)]) /\
  reports_sent (snd (lambda_handler rt_no_build create_event [])) = [fault].
Proof.
  intros refused fault.
  apply (fault_reported_and_raised rt_no_build create_event refused
           [StartBuild (VStr "p1")
              [EnvVar "CFN_EVENT_TYPE" "PLAINTEXT" (VStr "Create")]
              (Raise refused)]); reflexivity.
Defined.

Lemma build_environment_witness :
  exists request_type rp,
    lookup "RequestType" create_callback_event = Some request_type /\
    get create_callback_event "ResourceProperties" (VDict []) = VDict rp /\
    flag rp "CodeBuildCallback" = true /\
    request_type = VStr "Create".
Proof.
  destruct (build_environment rt_ok create_callback_event (VStr "p1") _ _
              (or_introl eq_refl))
    as (request_type & rp & Hrt & Hrp & _).
  exists request_type, rp.
  injection Hrt as <-. injection Hrp as <-.
  repeat split.
Defined.

(** Two [Delete] events of the examples whose properties agree but for
    [BuildOnDelete]. *)
Lemma delete_events_differ rp1 rp2 :
  (forall k, k <> "BuildOnDelete" -> lookup k rp1 = lookup k rp2) ->
  differ_only_in "BuildOnDelete" (delete_event rp1) (delete_event rp2).
Proof.
  intros H. split.
  - intros k Hk. apply String.eqb_neq in Hk.
    cbn [delete_event event_of app lookup]. now rewrite Hk.
  - exists (("ProjectName", VStr "p1") :: rp1), (("ProjectName", VStr "p1") :: rp2).
    split; [reflexivity|]. split; [reflexivity|].
    intros k Hk. cbn [lookup]. now rewrite (H k Hk).
Qed.

Lemma flags_read_by_truthiness_witness :
  lambda_handler rt_ok (delete_event [("BuildOnDelete", VStr "false")]) [] =
    lambda_handler rt_ok (delete_event [("BuildOnDelete", VBool true)]) [] /\
  lambda_handler rt_ok (delete_event []) [] =
    lambda_handler rt_ok (delete_event [("BuildOnDelete", VBool false)]) [].
Proof.
  split.
  - refine (proj1 (flags_read_by_truthiness rt_ok "BuildOnDelete"
                     (delete_event [("BuildOnDelete", VStr "false")])
                     (delete_event [("BuildOnDelete", VBool true)])
                     (or_introl eq_refl) (delete_events_differ _ _ _)
                     (fun _ => eq_refl))
                  "false" _ eq_refl eq_refl).
    + intros k Hk. apply String.eqb_neq in Hk. cbn [lookup]. now rewrite Hk.
    + discriminate.
  - refine (proj2 (flags_read_by_truthiness rt_ok "BuildOnDelete"
                     (delete_event [])
                     (delete_event [("BuildOnDelete", VBool false)])
                     (or_introl eq_refl) (delete_events_differ _ _ _)
                     (fun _ => eq_refl))
                  (or_introl eq_refl) eq_refl).
    intros k Hk. apply String.eqb_neq in Hk. cbn [lookup]. now rewrite Hk.
Defined.

(** ** More on the handler *)

Section Handler_more.

Variable rt : runtime.
Variable event : dict.

(** X1: In one invocation at most one build is started and at most one report
    is accepted, whatever the event and the collaborators. *)
Theorem at_most_one_build_and_report :
  length (builds_started (snd (lambda_handler rt event []))) <= 1 /\
  length (reports_sent (snd (lambda_handler rt event []))) <= 1.
Proof.
  run_handler. reduce. split_paths.
  all: cbn [snd app builds_started reports_sent flat_map length];
    split_paths;
    cbn [snd app builds_started reports_sent flat_map length]; lia.
Qed.

(** X2: The handler never raises without having called [cfnresponse.send] with
    a [FAILED] report as its last call. *)
Theorem raises_after_fault_report e t :
  lambda_handler rt event [] = (Raise e, t) ->
  exists t' reason outcome,
    t = (t' ++ [Send (Report FAILED reason VNone) outcome])%list.
Proof.
  unfold lambda_handler. cbn [catch Exc_Lambda].
  destruct (lambda_handler_try rt event []) as [[e0|[]] t0].
  - unfold send. cbn [bind raise Monad_Lambda Exc_Lambda].
    destruct (cfnresponse_send rt event _) eqn:Hsend;
      intros [= <- <-]; now eexists _, _, _.
  - intros [=].
Qed.

(** X3: When the [FAILED] report of a fault raises in turn, the handler raises
    the fault of the report, not the one it was reporting, and no report
    was accepted. *)
Theorem report_fault_masks e e' t :
  lambda_handler_try rt event [] = (Raise e, t) ->
  let fault := Report FAILED (str_exn e) VNone in
  cfnresponse_send rt event fault = Raise e' ->
  lambda_handler rt event [] = (Raise e', (t ++ [Send fault (Raise e')])%list) /\
  reports_sent (snd (lambda_handler rt event [])) = [].
Proof.
  intros Htry fault Hsend.
  assert (H : lambda_handler rt event [] =
                (Raise e', (t ++ [Send fault (Raise e')])%list)).
  { rewrite (handler_raises rt event [] t e Htry). cbv zeta. fold fault.
    now rewrite Hsend. }
  rewrite H. split; [reflexivity|].
  cbn [snd]. unfold reports_sent. rewrite flat_map_app.
  fold (reports_sent t). now rewrite (raised_unreported rt event e t Htry).
Qed.

(** X4: An event without [RequestType]: no collaborator is called in the
    [try] block, and the fault reported and raised is
    [KeyError('RequestType')]. *)
Theorem missing_request_type :
  lookup "RequestType" event = None ->
  let fault := Report FAILED "'RequestType'" VNone in
  cfnresponse_send rt event fault = Ok tt ->
  lambda_handler rt event [] =
    (Raise (KeyError "RequestType"), [Send fault (Ok tt)]).
Proof.
  intros Hrt fault Hsend.
  rewrite (handler_raises rt event [] [] (KeyError "RequestType")).
  - cbv zeta. change (str_exn (KeyError "RequestType")) with "'RequestType'".
    fold fault. now rewrite Hsend.
  - unfold lambda_handler_try, lift. cbn [bind Monad_Lambda].
    now rewrite (getitem_None _ _ Hrt).
Qed.

(** X5: [ResourceProperties] that are not a dict: on [Create], [Update] and
    [Delete] alike the [try] block raises [AttributeError] for the missing
    [get], before any call to a collaborator. *)
Theorem properties_not_a_dict request_type v :
  In request_type ["Create"; "Update"; "Delete"] ->
  lookup "RequestType" event = Some (VStr request_type) ->
  lookup "ResourceProperties" event = Some v ->
  (forall d, v <> VDict d) ->
  lambda_handler_try rt event [] =
    (Raise (AttributeError (type_name v) "get"), []).
Proof.
  intros Hin Hrt Hrp Hv.
  assert (Hget : forall k dflt,
             method_get v k dflt = Raise (AttributeError (type_name v) "get")).
  { intros k dflt. destruct v; try reflexivity. now elim (Hv d). }
  cbn [In] in Hin. destruct Hin as [<-|[<-|[<-|[]]]].
  - rewrite (try_create _ _ _ Hrt). run_handler.
    unfold get_cfn_env_var_overrides.
    rewrite (getitem_Some _ _ _ Hrp), (getitem_Some _ _ _ Hrt),
      (get_Some _ _ _ _ Hrp).
    cbn [bind ret Monad_result]. now rewrite Hget.
  - rewrite (try_update _ _ _ Hrt). run_handler.
    rewrite (get_Some _ _ _ _ Hrp). now rewrite Hget.
  - rewrite (try_delete _ _ _ Hrt). run_handler.
    rewrite (get_Some _ _ _ _ Hrp). now rewrite Hget.
Qed.

(** X6: When the overrides of an event cannot be computed, [start_build] is
    never called. *)
Theorem no_overrides_no_build e :
  get_cfn_env_var_overrides rt event = Raise e ->
  forall project_name env outcome,
    ~ In (StartBuild project_name env outcome) (snd (lambda_handler rt event [])).
Proof.
  intros He project_name env outcome Hin.
  rewrite (builds_use_overrides rt event _ _ _ Hin) in He. discriminate He.
Qed.

End Handler_more.

Lemma eq_str_true v s : eq_str v s = true -> v = VStr s.
Proof.
  destruct v; simpl; try discriminate.
  intros H. apply String.eqb_eq in H. now subst.
Qed.

Section Update_more.

Variable rt : runtime.
Variable event : dict.
Variable rp : dict.
Variables (project_name : value) (env : list env_var) (response : value).

Hypothesis is_update : lookup "RequestType" event = Some (VStr "Update").
Hypothesis properties : get event "ResourceProperties" (VDict []) = VDict rp.
Hypothesis not_ignored : flag rp "IgnoreUpdate" = false.
Hypothesis named : lookup "ProjectName" rp = Some project_name.
Hypothesis overrides : get_cfn_env_var_overrides rt event = Ok env.
Hypothesis build_starts : codebuild_start_build rt project_name env = Ok response.

(** The [try] block of an [Update] that is not ignored, up to the lookup
    of the misspelled key. *)
Lemma update_after_build t :
  handle_update rt event t =
    let t1 := (t ++ [StartBuild project_name env (Ok response)])%list in
    if flag rp "CodeBuildCalback" then (Ok tt, t1)
    else
      match subscript response "build" with
      | inl e => (Raise e, t1)
      | inr build =>
          match subscript build "buildNumber" with
          | inl e => (Raise e, t1)
          | inr number =>
              match getitem event "PhysicalResourceId" with
              | inl e => (Raise e, t1)
              | inr physical_resource_id =>
                  send rt event SUCCESS
                    ("Started CodeBuild #" ++ str rt number)
                    physical_resource_id t1
              end
          end
      end.
Proof.
  unfold handle_update, start_build, lift.
  cbn [bind ret Monad_Lambda Ok Raise]. rewrite properties. reduce.
  rewrite flag_default, not_ignored, overrides. reduce.
  rewrite (getitem_Some _ _ _ named), build_starts. reduce.
  fold (flag rp "CodeBuildCalback").
  destruct (flag rp "CodeBuildCalback"); reduce; [reflexivity|].
  destruct (subscript response "build") as [|build]; reduce; [reflexivity|].
  destruct (subscript build "buildNumber") as [|number]; reduce; [reflexivity|].
  now destruct (getitem event "PhysicalResourceId").
Qed.

End Update_more.

(** X7: An [Update] that is not ignored, without a true ["CodeBuildCalback"]
    property: the build is started, and the [SUCCESS] report
    ["Started CodeBuild #<number>"] keeps the [PhysicalResourceId] of the
    event; the [arn] of the new build is not read. *)
Theorem update_rebuilds (rt : runtime) (event rp : dict)
    project_name env response build number physical_resource_id :
  lookup "RequestType" event = Some (VStr "Update") ->
  get event "ResourceProperties" (VDict []) = VDict rp ->
  flag rp "IgnoreUpdate" = false ->
  flag rp "CodeBuildCalback" = false ->
  lookup "ProjectName" rp = Some project_name ->
  get_cfn_env_var_overrides rt event = Ok env ->
  codebuild_start_build rt project_name env = Ok response ->
  subscript response "build" = Ok build ->
  subscript build "buildNumber" = Ok number ->
  lookup "PhysicalResourceId" event = Some physical_resource_id ->
  let started :=
    Report SUCCESS ("Started CodeBuild #" ++ str rt number)
      physical_resource_id in
  cfnresponse_send rt event started = Ok tt ->
  lambda_handler rt event [] =
    (Ok tt, [StartBuild project_name env (Ok response); Send started (Ok tt)]).
Proof.
  intros Hrt Hrp Hignore Htypo Hname Henv Hbuild Hb Hn Hpid started Hsend.
  apply handler_returns. rewrite (try_update _ _ _ Hrt).
  rewrite (update_after_build rt event rp project_name env response
             Hrp Hignore Hname Henv Hbuild).
  cbv zeta. rewrite Htypo, Hb. reduce. rewrite Hn. reduce.
  rewrite (getitem_Some _ _ _ Hpid). reduce.
  unfold send. fold started. now rewrite Hsend.
Qed.

(** X8: An [Update] that is not ignored, on an event without
    [PhysicalResourceId]: the build is started all the same, then the
    lookup raises, and the handler reports [FAILED] and raises while the
    build runs. *)
Theorem update_fault_after_build (rt : runtime) (event rp : dict)
    project_name env response build number :
  lookup "RequestType" event = Some (VStr "Update") ->
  get event "ResourceProperties" (VDict []) = VDict rp ->
  flag rp "IgnoreUpdate" = false ->
  flag rp "CodeBuildCalback" = false ->
  lookup "ProjectName" rp = Some project_name ->
  get_cfn_env_var_overrides rt event = Ok env ->
  codebuild_start_build rt project_name env = Ok response ->
  subscript response "build" = Ok build ->
  subscript build "buildNumber" = Ok number ->
  lookup "PhysicalResourceId" event = None ->
  let fault := Report FAILED "'PhysicalResourceId'" VNone in
  cfnresponse_send rt event fault = Ok tt ->
  lambda_handler rt event [] =
    (Raise (KeyError "PhysicalResourceId"),
     [StartBuild project_name env (Ok response); Send fault (Ok tt)]) /\
  builds_started (snd (lambda_handler rt event [])) = [(project_name, env)].
Proof.
  intros Hrt Hrp Hignore Htypo Hname Henv Hbuild Hb Hn Hpid fault Hsend.
  assert (H : lambda_handler rt event [] =
                (Raise (KeyError "PhysicalResourceId"),
                 [StartBuild project_name env (Ok response); Send fault (Ok tt)])).
  { rewrite (handler_raises rt event []
               [StartBuild project_name env (Ok response)]
               (KeyError "PhysicalResourceId")).
    - cbv zeta.
      change (str_exn (KeyError "PhysicalResourceId")) with "'PhysicalResourceId'".
      fold fault. now rewrite Hsend.
    - rewrite (try_update _ _ _ Hrt).
      rewrite (update_after_build rt event rp project_name env response
                 Hrp Hignore Hname Henv Hbuild).
      cbv zeta. rewrite Htypo, Hb. reduce. rewrite Hn. reduce.
      now rewrite (getitem_None _ _ Hpid). }
  rewrite H. now split.
Qed.

(** X9: An [Update] that is not ignored, with a true ["CodeBuildCalback"]
    property (the spelling the handler looks up): the build is started and
    nothing is reported, whatever [CodeBuildCallback] says and whether or
    not the event holds a [PhysicalResourceId]. *)
Theorem misspelled_key_suppresses_report (rt : runtime) (event rp : dict)
    project_name env response :
  lookup "RequestType" event = Some (VStr "Update") ->
  get event "ResourceProperties" (VDict []) = VDict rp ->
  flag rp "IgnoreUpdate" = false ->
  flag rp "CodeBuildCalback" = true ->
  lookup "ProjectName" rp = Some project_name ->
  get_cfn_env_var_overrides rt event = Ok env ->
  codebuild_start_build rt project_name env = Ok response ->
  lambda_handler rt event [] =
    (Ok tt, [StartBuild project_name env (Ok response)]) /\
  reports_sent (snd (lambda_handler rt event [])) = [].
Proof.
  intros Hrt Hrp Hignore Htypo Hname Henv Hbuild.
  assert (H : lambda_handler rt event [] =
                (Ok tt, [StartBuild project_name env (Ok response)])).
  { apply handler_returns. rewrite (try_update _ _ _ Hrt).
    rewrite (update_after_build rt event rp project_name env response
               Hrp Hignore Hname Henv Hbuild).
    cbv zeta. now rewrite Htypo. }
  rewrite H. now split.
Qed.

(** A build is only started for a [RequestType] among [Create], [Update]
    and [Delete]. *)
Lemma builds_on_lifecycle_events (rt : runtime) (event : dict) p env o :
  In (StartBuild p env o) (snd (lambda_handler rt event [])) ->
  exists request_type,
    lookup "RequestType" event = Some (VStr request_type) /\
    In request_type ["Create"; "Update"; "Delete"].
Proof.
  unfold lambda_handler, lambda_handler_try, lift, getitem.
  cbn [catch bind Exc_Lambda Monad_Lambda Ok Raise].
  destruct (lookup "RequestType" event) as [v|]; reduce.
  - destruct (eq_str v "Create") eqn:Hc.
    { apply eq_str_true in Hc. subst v. intros _. exists "Create". cbn; auto. }
    destruct (eq_str v "Update") eqn:Hu.
    { apply eq_str_true in Hu. subst v. intros _. exists "Update". cbn; auto. }
    destruct (eq_str v "Delete") eqn:Hd.
    { apply eq_str_true in Hd. subst v. intros _. exists "Delete". cbn; auto. }
    unfold send. reduce. split_paths.
    all: cbn [In]; intros H; repeat destruct H as [H|H];
      try discriminate H; contradiction.
  - unfold send. reduce. split_paths.
    all: cbn [In]; intros H; repeat destruct H as [H|H];
      try discriminate H; contradiction.
Qed.

(** X10: The build that the handler starts is told the [RequestType] in
    [CFN_EVENT_TYPE], so the buildspec runs [cdk destroy] in the builds
    started for a [Delete] event and [cdk deploy] in all the others. *)
Theorem destroy_only_on_delete (rt : runtime) (event : dict) p env o :
  In (StartBuild p env o) (snd (lambda_handler rt event [])) ->
  exists request_type,
    lookup "RequestType" event = Some (VStr request_type) /\
    In request_type ["Create"; "Update"; "Delete"] /\
    In (EnvVar "CFN_EVENT_TYPE" "PLAINTEXT" (VStr request_type)) env /\
    (request_type = "Delete" ->
     cdk_command request_type = "npx cdk destroy --all --force") /\
    (request_type <> "Delete" ->
     cdk_command request_type =
       "npx cdk deploy --all --concurrency 8 --require-approval never").
Proof.
  intros Hin.
  destruct (builds_on_lifecycle_events rt event p env o Hin)
    as (request_type & Hrt & Hkind).
  destruct (overrides_shape rt event env
              (builds_use_overrides rt event p env o Hin))
    as (rq & rp & Hrq & _ & Hshape).
  rewrite Hrt in Hrq. injection Hrq as <-.
  exists request_type. split; [exact Hrt|]. split; [exact Hkind|]. split.
  - destruct (flag rp "CodeBuildCallback").
    + destruct Hshape as (? & ? & ? & ? & _ & _ & _ & _ & ->). cbn [In]. auto.
    + subst env. cbn [In]. auto.
  - unfold cdk_command. split.
    + now intros ->.
    + intros Hne. apply String.eqb_neq in Hne. now rewrite Hne.
Qed.

(** ** The callback script of the build job *)

Import Job.

Lemma lookup_dict_set_same k x d : lookup k (dict_set k x d) = Some x.
Proof.
  induction d as [|[k' v] d IH]; cbn.
  - now rewrite String.eqb_refl.
  - destruct (String.eqb k k') eqn:E; cbn; rewrite E; [reflexivity | exact IH].
Qed.

Lemma lookup_dict_set_other k k' x d :
  k <> k' -> lookup k (dict_set k' x d) = lookup k d.
Proof.
  intros Hne. apply String.eqb_neq in Hne.
  induction d as [|[k0 v] d IH]; cbn.
  - now rewrite Hne.
  - destruct (String.eqb k' k0) eqn:E; cbn.
    + apply String.eqb_eq in E. subst k0. now rewrite Hne.
    + destruct (String.eqb k k0); [reflexivity | exact IH].
Qed.

(** The name of the log stream is never empty, so the reason never falls
    back on the ARN. *)
Lemma log_stream_truthy s : truthy (VStr ("/aws/codebuild/" ++ s)) = true.
Proof. reflexivity. Qed.

Ltac run_script :=
  unfold cfn_callback, cfn_callback_try, put, print, step;
  cbn [catch raise bind ret Exc_Script Monad_Script Ok Raise].

Ltac reduce_script :=
  cbn [catch raise bind ret Exc_Script Monad_Script Ok Raise
       setitem subscript app fst snd].

Lemma environ_item_Some env k v : getenv k env = Some v -> environ_item env k = inr v.
Proof. unfold environ_item. now intros ->. Qed.

Lemma environ_item_inv env k v : environ_item env k = inr v -> getenv k env = Some v.
Proof. unfold environ_item. destruct (getenv k env); now intros [= <-]. Qed.

(** The status set first is the one read back for the last line. *)
Lemma status_read_back x y z d :
  getitem
    (dict_set "Reason" x (dict_set "PhysicalResourceId" y (dict_set "Status" z d)))
    "Status" = inr z.
Proof.
  unfold getitem.
  rewrite !lookup_dict_set_other by discriminate.
  now rewrite lookup_dict_set_same.
Qed.

Section Callback_facts.

Variable h : host.
Variable env : environ.

(** X11: Without [CFN_EVENT_RESPONSE_URL], or with an empty one, the script
    prints one line and exits with status 0: nothing is read, parsed or
    sent. *)
Theorem callback_skipped_without_url :
  getenv "CFN_EVENT_RESPONSE_URL" env = None \/
  getenv "CFN_EVENT_RESPONSE_URL" env = Some EmptyString ->
  cfn_callback h env [] =
    (Ok Exit0, [Print "No CloudFormation response URL provided"]).
Proof.
  intros [H|H]; unfold cfn_callback; rewrite H; reflexivity.
Qed.

End Callback_facts.

Section Callback_runs.

Variable h : host.
Variable env : environ.

(** The [try] block when every read, parse and call succeeds. *)
Lemma callback_try_ok url event_data d succeeding n build_arn t :
  getenv "CFN_EVENT_DATA" env = Some event_data ->
  job_json_loads h event_data = Ok (VDict d) ->
  getenv "CODEBUILD_BUILD_SUCCEEDING" env = Some succeeding ->
  job_int h succeeding = Ok n ->
  getenv "CODEBUILD_BUILD_ARN" env = Some build_arn ->
  let status := if (n =? 0)%Z then "FAILED" else "SUCCESS" in
  let payload :=
    VDict
      (dict_set "Reason"
         (VStr ("See details in CloudWatch Log Stream /aws/codebuild/"
                ++ partition_tail "/" build_arn))
         (dict_set "PhysicalResourceId" (VStr build_arn)
            (dict_set "Status" (VStr status) d))) in
  requests_put h url (job_json_dumps h payload) = Ok tt ->
  cfn_callback_try h env url t =
    (Ok tt,
     (t ++ [Put url (job_json_dumps h payload) (Ok tt)]
        ++ [Print ("Notified CloudFormation of " ++ status)])%list).
Proof.
  intros Hdata Hloads Hsucc Hint Harn status payload Hput.
  run_script.
  rewrite (environ_item_Some _ _ _ Hdata), Hloads. reduce_script.
  rewrite (environ_item_Some _ _ _ Hsucc), Hint. reduce_script.
  rewrite (environ_item_Some _ _ _ Harn). reduce_script.
  rewrite log_stream_truthy. fold status.
  change ("See details in " ++
          "CloudWatch Log Stream " ++ "/aws/codebuild/" ++ partition_tail "/" build_arn)
    with ("See details in CloudWatch Log Stream /aws/codebuild/"
          ++ partition_tail "/" build_arn).
  fold payload. rewrite Hput. reduce_script.
  rewrite status_read_back. reduce_script.
  now rewrite <- app_assoc.
Qed.

(** X12: With a response URL, a [CFN_EVENT_DATA] that parses to a dict, a
    [CODEBUILD_BUILD_SUCCEEDING] that parses to an integer and a build ARN,
    when the PUT is accepted: the script sends one payload, the parsed dict
    with [Status] ([FAILED] for 0, [SUCCESS] otherwise),
    [PhysicalResourceId] (the build ARN) and [Reason] (the log stream named
    after what follows the first slash of the ARN) set in that order, and
    prints that it notified CloudFormation of the status. *)
Theorem callback_notifies url event_data d succeeding n build_arn :
  getenv "CFN_EVENT_RESPONSE_URL" env = Some url ->
  url <> EmptyString ->
  getenv "CFN_EVENT_DATA" env = Some event_data ->
  job_json_loads h event_data = Ok (VDict d) ->
  getenv "CODEBUILD_BUILD_SUCCEEDING" env = Some succeeding ->
  job_int h succeeding = Ok n ->
  getenv "CODEBUILD_BUILD_ARN" env = Some build_arn ->
  let status := if (n =? 0)%Z then "FAILED" else "SUCCESS" in
  let payload :=
    VDict
      (dict_set "Reason"
         (VStr ("See details in CloudWatch Log Stream /aws/codebuild/"
                ++ partition_tail "/" build_arn))
         (dict_set "PhysicalResourceId" (VStr build_arn)
            (dict_set "Status" (VStr status) d))) in
  requests_put h url (job_json_dumps h payload) = Ok tt ->
  cfn_callback h env [] =
    (Ok Completed,
     [Put url (job_json_dumps h payload) (Ok tt);
      Print ("Notified CloudFormation of " ++ status)]).
Proof.
  intros Hurl Hne Hdata Hloads Hsucc Hint Harn status payload Hput.
  unfold cfn_callback. rewrite Hurl.
  assert (Ht : truthy (VStr url) = true).
  { cbn [truthy]. destruct (String.eqb_spec url EmptyString);
      [contradiction | reflexivity]. }
  rewrite Ht. cbn [catch bind ret Exc_Script Monad_Script].
  now rewrite (callback_try_ok url event_data d succeeding n build_arn []
                 Hdata Hloads Hsucc Hint Harn Hput).
Qed.

(** X13: Whatever the script sends goes to [CFN_EVENT_RESPONSE_URL] and is the
    [json.dumps] of a dict whose [PhysicalResourceId] is the build ARN,
    whose [Status] is [SUCCESS] or [FAILED] and whose [Reason] names the
    log stream: the reason with the ARN in full, the other arm of the
    conditional, is never sent, not even for an ARN without a slash. *)
Theorem callback_put_payload url body outcome :
  In (Put url body outcome) (snd (cfn_callback h env [])) ->
  exists d build_arn,
    getenv "CFN_EVENT_RESPONSE_URL" env = Some url /\
    getenv "CODEBUILD_BUILD_ARN" env = Some build_arn /\
    body = job_json_dumps h (VDict d) /\
    lookup "PhysicalResourceId" d = Some (VStr build_arn) /\
    lookup "Reason" d =
      Some (VStr ("See details in CloudWatch Log Stream /aws/codebuild/"
                  ++ partition_tail "/" build_arn)) /\
    (lookup "Status" d = Some (VStr "SUCCESS") \/
     lookup "Status" d = Some (VStr "FAILED")).
Proof.
  unfold cfn_callback.
  destruct (getenv "CFN_EVENT_RESPONSE_URL" env) as [u|] eqn:Hurl;
    [|cbn; intros [[=]|[]]].
  destruct (truthy (VStr u)); [|cbn; intros [[=]|[]]].
  run_script.
  destruct (environ_item env "CFN_EVENT_DATA") as [|event_data];
    reduce_script; [cbn; intros [[=]|[]]|].
  destruct (job_json_loads h event_data) as [|data];
    reduce_script; [cbn; intros [[=]|[]]|].
  destruct (environ_item env "CODEBUILD_BUILD_SUCCEEDING") as [|succeeding];
    reduce_script; [cbn; intros [[=]|[]]|].
  destruct (job_int h succeeding) as [|n];
    reduce_script; [cbn; intros [[=]|[]]|].
  destruct data as [| | | | |d]; reduce_script; try (cbn; intros [[=]|[]]).
  destruct (environ_item env "CODEBUILD_BUILD_ARN") as [|build_arn] eqn:Harn;
    reduce_script; [cbn; intros [[=]|[]]|].
  rewrite log_stream_truthy.
  change ("See details in " ++
          "CloudWatch Log Stream " ++ "/aws/codebuild/" ++ partition_tail "/" build_arn)
    with ("See details in CloudWatch Log Stream /aws/codebuild/"
          ++ partition_tail "/" build_arn).
  rewrite status_read_back.
  set (status := VStr (if (n =? 0)%Z then "FAILED" else "SUCCESS")).
  set (payload := dict_set "Reason" _ _).
  assert (Hshape :
    forall t, In (Put url body outcome) t ->
      (forall c, In c t -> c = Put u (job_json_dumps h (VDict payload))
                                 (requests_put h u (job_json_dumps h (VDict payload)))
                           \/ exists line, c = Print line) ->
      url = u /\ body = job_json_dumps h (VDict payload)).
  { intros t Hin Hall. destruct (Hall _ Hin) as [[= -> -> _]|[line [=]]]. now split. }
  intros Hin.
  destruct (Hshape _ Hin) as [-> ->].
  { destruct (requests_put h u _); reduce_script;
      cbn [In]; intros c Hc; repeat destruct Hc as [Hc|Hc];
      try contradiction; subst c; eauto. }
  exists payload, build_arn.
  split; [reflexivity|]. split; [now apply environ_item_inv|].
  split; [reflexivity|]. unfold payload.
  split; [|split].
  - rewrite lookup_dict_set_other by discriminate. apply lookup_dict_set_same.
  - apply lookup_dict_set_same.
  - rewrite !lookup_dict_set_other by discriminate.
    rewrite lookup_dict_set_same. unfold status.
    destruct (n =? 0)%Z; auto.
Qed.

(** X14: How the script ends tells what it sent: it completes after exactly one
    accepted PUT, followed by the line that says so; it exits with 0 after
    the one line about the missing URL; and when it raises, no PUT was
    accepted and the last line printed is the one about the failure. *)
Theorem callback_endings :
  let run := cfn_callback h env [] in
  match fst run with
  | inr Completed =>
      exists url body status,
        snd run = [Put url body (Ok tt);
                   Print ("Notified CloudFormation of " ++ status)]
  | inr Exit0 => snd run = [Print "No CloudFormation response URL provided"]
  | inl _ =>
      puts (snd run) = [] /\
      exists t,
        snd run =
          (t ++ [Print "Failed to send response to CloudFormation event handler"])%list
  end.
Proof.
  unfold cfn_callback.
  destruct (getenv "CFN_EVENT_RESPONSE_URL" env) as [u|]; [|reflexivity].
  destruct (truthy (VStr u)); [|reflexivity].
  run_script.
  destruct (environ_item env "CFN_EVENT_DATA") as [|event_data];
    reduce_script; [split; [reflexivity | now exists []]|].
  destruct (job_json_loads h event_data) as [|data];
    reduce_script; [split; [reflexivity | now exists []]|].
  destruct (environ_item env "CODEBUILD_BUILD_SUCCEEDING") as [|succeeding];
    reduce_script; [split; [reflexivity | now exists []]|].
  destruct (job_int h succeeding) as [|n];
    reduce_script; [split; [reflexivity | now exists []]|].
  destruct data as [| | | | |d]; reduce_script;
    try (split; [reflexivity | now exists []]).
  destruct (environ_item env "CODEBUILD_BUILD_ARN") as [|build_arn];
    reduce_script; [split; [reflexivity | now exists []]|].
  rewrite log_stream_truthy, status_read_back.
  destruct (requests_put h u _) as [|[]]; reduce_script.
  - split; [reflexivity | now eexists [_]].
  - destruct (n =? 0)%Z; now eexists _, _, _.
Qed.

End Callback_runs.

(** ** The handshake: the handler delegates, the build job answers *)

(** X15: When the handler starts a build for an event whose [CodeBuildCallback]
    is true and whose [ResponseURL] is a non-empty string, and the build
    runs the script with the overrides in its environment
    ([json.loads] reading back what [json.dumps] wrote), the script sends
    one payload to the [ResponseURL] of the event: the event's
    [LogicalResourceId], [RequestId] and [StackId], the [NoEcho] property,
    an empty [Data], then [Status], the build ARN as [PhysicalResourceId]
    and the [Reason]. *)
Theorem delegated_build_answers (rt : runtime) (h : host) (event rp : dict)
    (env : environ) project_name overrides outcome url succeeding n build_arn :
  In (StartBuild project_name overrides outcome)
     (snd (lambda_handler rt event [])) ->
  get event "ResourceProperties" (VDict []) = VDict rp ->
  flag rp "CodeBuildCallback" = true ->
  lookup "ResponseURL" event = Some (VStr url) ->
  url <> EmptyString ->
  (forall name v,
     In (EnvVar name "PLAINTEXT" (VStr v)) overrides -> getenv name env = Some v) ->
  let identifiers :=
    [("LogicalResourceId", get event "LogicalResourceId" VNone);
     ("RequestId", get event "RequestId" VNone);
     ("StackId", get event "StackId" VNone);
     ("NoEcho", get rp "NoEcho" (VBool false));
     ("Data", VDict [])] in
  job_json_loads h (json_dumps rt (VDict identifiers)) = Ok (VDict identifiers) ->
  getenv "CODEBUILD_BUILD_SUCCEEDING" env = Some succeeding ->
  job_int h succeeding = Ok n ->
  getenv "CODEBUILD_BUILD_ARN" env = Some build_arn ->
  (forall body, requests_put h url body = Ok tt) ->
  puts (snd (cfn_callback h env [])) =
    [(url,
      job_json_dumps h
        (VDict (identifiers ++
           [("Status", VStr (if (n =? 0)%Z then "FAILED" else "SUCCESS"));
            ("PhysicalResourceId", VStr build_arn);
            ("Reason",
             VStr ("See details in CloudWatch Log Stream /aws/codebuild/"
                   ++ partition_tail "/" build_arn))])%list))].
Proof.
  intros Hin Hrp Hflag Hurl Hne Hexport identifiers Hloads Hsucc Hint Harn Hput.
  destruct (overrides_shape rt event overrides
              (builds_use_overrides rt event _ _ _ Hin))
    as (rq & rp' & _ & Hrp' & Hshape).
  rewrite Hrp in Hrp'. injection Hrp' as <-. rewrite Hflag in Hshape.
  destruct Hshape as (lid & rid & sid & url' & Hlid & Hrid & Hsid & Hurl' & ->).
  rewrite Hurl in Hurl'. injection Hurl' as <-.
  assert (Hdata : getenv "CFN_EVENT_DATA" env =
                    Some (json_dumps rt (VDict identifiers))).
  { apply Hexport. unfold identifiers.
    rewrite (get_Some _ _ _ _ Hlid), (get_Some _ _ _ _ Hrid),
      (get_Some _ _ _ _ Hsid).
    cbn [In]. auto. }
  assert (Henv : getenv "CFN_EVENT_RESPONSE_URL" env = Some url).
  { apply Hexport. cbn [In]. auto. }
  unfold cfn_callback. rewrite Henv.
  assert (Ht : truthy (VStr url) = true).
  { cbn [truthy]. destruct (String.eqb_spec url EmptyString);
      [contradiction | reflexivity]. }
  rewrite Ht. cbn [catch bind ret Exc_Script Monad_Script].
  rewrite (callback_try_ok h env url _ identifiers succeeding n build_arn []
             Hdata Hloads Hsucc Hint Harn (Hput _)).
  reflexivity.
Qed.

(** ** The notebook's datapoints *)

Import Notebook.

Lemma loop_collects m dps : forall acc lines,
  dp_transform_loop dps m acc = inr lines ->
  lines = (acc ++ filter (fits m) dps)%list /\
  Forall (fun dp => exists total, total_length dp = inr total) dps.
Proof.
  induction dps as [|dp rest IH]; intros acc lines; cbn [dp_transform_loop].
  - cbn. intros [= <-]. now rewrite app_nil_r.
  - cbn [bind Monad_nb_result filter]. unfold fits at 1.
    destruct (total_length dp) as [e|total] eqn:Htotal; [intros [=]|].
    intros H. apply IH in H as [-> Hall]. split.
    + destruct (Z.of_nat total <=? m)%Z; [|reflexivity].
      now rewrite <- app_assoc.
    + constructor; [now exists total | exact Hall].
Qed.

Lemma loop_total m dps : forall acc,
  Forall (fun dp => exists total, total_length dp = inr total) dps ->
  dp_transform_loop dps m acc = inr (acc ++ filter (fits m) dps)%list.
Proof.
  induction dps as [|dp rest IH]; intros acc Hall; cbn [dp_transform_loop].
  - cbn. now rewrite app_nil_r.
  - inversion Hall as [|? ? [total Htotal] Hrest]; subst.
    cbn [bind Monad_nb_result filter]. unfold fits at 1. rewrite Htotal.
    rewrite (IH _ Hrest).
    destruct (Z.of_nat total <=? m)%Z; [|reflexivity].
    now rewrite <- app_assoc.
Qed.

Lemma loop_stops m good bad rest e : forall acc,
  Forall (fun dp => exists total, total_length dp = inr total) good ->
  total_length bad = inl e ->
  dp_transform_loop (good ++ bad :: rest) m acc = inl e.
Proof.
  induction good as [|dp good IH]; intros acc Hall Hbad.
  - cbn [app dp_transform_loop bind Monad_nb_result]. now rewrite Hbad.
  - inversion Hall as [|? ? [total Htotal] Hgood]; subst.
    cbn [app dp_transform_loop bind Monad_nb_result]. rewrite Htotal.
    now apply IH.
Qed.

(** What [dp_transform] returns when it returns. *)
Lemma dp_transform_returns kn dps n m lines :
  dp_transform kn dps n m = inr lines ->
  lines = slice_to (Z.min n 20000) (shuffle kn (filter (fits m) dps)).
Proof.
  unfold dp_transform. cbn [bind ret Monad_nb_result].
  destruct (dp_transform_loop dps m []) as [|kept] eqn:Hloop; [intros [=]|].
  apply loop_collects in Hloop as [-> _]. now intros [= <-].
Qed.

Lemma firstn_In {A} n (l : list A) x : In x (firstn n l) -> In x l.
Proof.
  intros H. rewrite <- (firstn_skipn n l). apply in_or_app. now left.
Qed.

Lemma slice_to_incl k l x : In x (slice_to k l) -> In x l.
Proof.
  unfold slice_to. destruct (0 <=? k)%Z; apply firstn_In.
Qed.

Lemma code_points_append s1 s2 :
  code_points (s1 ++ s2) = code_points s1 + code_points s2.
Proof.
  induction s1 as [|a s1 IH]; [reflexivity|].
  change (String a s1 ++ s2) with (String a (s1 ++ s2)).
  cbn [code_points]. rewrite IH. now destruct (continuation a).
Qed.

Section Datapoints.

Variable kn : kernel.
Variables (data_points : list value) (num_dps max_dp_length : Z).

(** X16: Every datapoint that [dp_transform] returns is one of its input whose
    three texts add up to at most [max_dp_length] characters, whatever the
    shuffle, as long as it permutes. *)
Theorem dp_transform_selects lines :
  (forall l, Permutation l (shuffle kn l)) ->
  dp_transform kn data_points num_dps max_dp_length = inr lines ->
  forall dp, In dp lines ->
    In dp data_points /\
    exists total,
      total_length dp = inr total /\ (Z.of_nat total <= max_dp_length)%Z.
Proof.
  intros Hperm Hrun dp Hin.
  rewrite (dp_transform_returns _ _ _ _ _ Hrun) in Hin.
  apply slice_to_incl in Hin.
  apply (Permutation_in _ (Permutation_sym (Hperm _))) in Hin.
  apply filter_In in Hin as [Hin Hfits]. split; [exact Hin|].
  unfold fits in Hfits. destruct (total_length dp) as [|total]; [discriminate|].
  exists total. split; [reflexivity|]. now apply Z.leb_le.
Qed.

(** X17: For a count [num_dps >= 0], [dp_transform] returns at most
    [min(num_dps, 20000)] datapoints, whatever the shuffle does. *)
Theorem dp_transform_capped lines :
  (0 <= num_dps)%Z ->
  dp_transform kn data_points num_dps max_dp_length = inr lines ->
  (Z.of_nat (length lines) <= Z.min num_dps 20000)%Z.
Proof.
  intros Hn Hrun. rewrite (dp_transform_returns _ _ _ _ _ Hrun).
  unfold slice_to.
  assert (H0 : (0 <=? Z.min num_dps 20000)%Z = true) by (apply Z.leb_le; lia).
  rewrite H0. pose proof (firstn_le_length (Z.to_nat (Z.min num_dps 20000))
                            (shuffle kn (filter (fits max_dp_length) data_points))).
  rewrite length_firstn. lia.
Qed.

(** X18: When the datapoints within the length are no more than
    [min(num_dps, 20000)], [dp_transform] returns all of them, each as
    often as it came. *)
Theorem dp_transform_keeps_all lines :
  (forall l, Permutation l (shuffle kn l)) ->
  dp_transform kn data_points num_dps max_dp_length = inr lines ->
  (Z.of_nat (length (filter (fits max_dp_length) data_points))
   <= Z.min num_dps 20000)%Z ->
  Permutation (filter (fits max_dp_length) data_points) lines.
Proof.
  intros Hperm Hrun Hroom. rewrite (dp_transform_returns _ _ _ _ _ Hrun).
  unfold slice_to.
  assert (H0 : (0 <=? Z.min num_dps 20000)%Z = true) by (apply Z.leb_le; lia).
  rewrite H0. rewrite firstn_all2; [apply Hperm|].
  rewrite <- (Permutation_length (Hperm _)). lia.
Qed.

(** X19: A negative [num_dps] does not give an empty result: the slice then
    drops [-num_dps] datapoints from the end of the shuffled list. *)
Theorem dp_transform_negative_count lines :
  (forall l, Permutation l (shuffle kn l)) ->
  (num_dps < 0)%Z ->
  dp_transform kn data_points num_dps max_dp_length = inr lines ->
  length lines =
    length (filter (fits max_dp_length) data_points) - Z.to_nat (- num_dps).
Proof.
  intros Hperm Hn Hrun. rewrite (dp_transform_returns _ _ _ _ _ Hrun).
  unfold slice_to.
  assert (H0 : (0 <=? Z.min num_dps 20000)%Z = false) by (apply Z.leb_gt; lia).
  rewrite H0, length_firstn, <- (Permutation_length (Hperm _)).
  replace (Z.min num_dps 20000) with num_dps by lia. lia.
Qed.

End Datapoints.

(** X20: A datapoint whose texts cannot be measured makes [dp_transform] raise
    the fault of the first such datapoint, whatever [num_dps] and
    [max_dp_length] are and whatever follows it. *)
Theorem dp_transform_malformed (kn : kernel) good bad rest e n m :
  Forall (fun dp => exists total, total_length dp = inr total) good ->
  total_length bad = inl e ->
  dp_transform kn (good ++ bad :: rest) n m = inl e.
Proof.
  intros Hgood Hbad. unfold dp_transform. cbn [bind Monad_nb_result].
  now rewrite (loop_stops m good bad rest e [] Hgood Hbad).
Qed.

Section Conversion.

Variable kn : kernel.

(** The converted datapoint of a row with an article and highlights. *)
Lemma convert_returns d article highlights :
  lookup "article" d = Some article ->
  lookup "highlights" d = Some highlights ->
  convert_to_nova_micro_format kn (VDict d) =
    inr (VDict [
      ("schemaVersion", VStr "bedrock-conversation-2024");
      ("system", VList [VDict [("text", VStr system_instruction)]]);
      ("messages", VList [
         VDict [
           ("role", VStr "user");
           ("content", VList [VDict [
              ("text", VStr ("Summarize the following news article:" ++ newline
                             ++ newline ++ fstr kn article))]])];
         VDict [
           ("role", VStr "assistant");
           ("content", VList [VDict [("text", highlights)]])]])]).
Proof.
  intros Ha Hh. unfold convert_to_nova_micro_format. cbn [subscript].
  now rewrite (getitem_Some _ _ _ Ha), (getitem_Some _ _ _ Hh).
Qed.

(** The length that [dp_transform] measures on a converted datapoint. *)
Lemma converted_total d article highlights dp :
  lookup "article" d = Some article ->
  lookup "highlights" d = Some highlights ->
  convert_to_nova_micro_format kn (VDict d) = inr dp ->
  total_length dp =
    (assistant <- len highlights ;;
     ret (122 + code_points (fstr kn article) + assistant)).
Proof.
  intros Ha Hh. rewrite (convert_returns d article highlights Ha Hh).
  intros [= <-]. unfold total_length, system_length, message_length.
  cbn [subscript getitem lookup String.eqb Ascii.eqb Bool.eqb up item nth_error
       bind ret Monad_nb_result Monad_result Ok Raise len].
  rewrite !code_points_append.
  destruct (len highlights) as [|assistant]; [reflexivity|].
  cbn [bind ret Monad_nb_result]. apply f_equal.
  change (code_points system_instruction) with 83.
  change (code_points "Summarize the following news article:") with 37.
  change (code_points newline) with 1. lia.
Qed.

(** X21: The character budget of a row: the system prompt and the instruction
    before the article take 122 of the [max_dp_length] characters, so a row
    with an article and highlights that are strings is kept exactly when
    their numbers of code points add up to at most [max_dp_length - 122]. *)
Theorem converted_budget d article highlights :
  lookup "article" d = Some (VStr article) ->
  lookup "highlights" d = Some (VStr highlights) ->
  exists dp,
    convert_to_nova_micro_format kn (VDict d) = inr dp /\
    total_length dp =
      inr (122 + code_points article + code_points highlights) /\
    forall max_dp_length,
      fits max_dp_length dp =
        (Z.of_nat (code_points article + code_points highlights)
         <=? max_dp_length - 122)%Z.
Proof.
  intros Ha Hh. eexists. split; [exact (convert_returns d _ _ Ha Hh)|].
  pose proof (converted_total d _ _ _ Ha Hh (convert_returns d _ _ Ha Hh)) as Ht.
  split; [exact Ht|].
  intros m. unfold fits. rewrite Ht. cbn [len fstr bind ret Monad_nb_result].
  destruct (Z.leb_spec (Z.of_nat (122 + code_points article + code_points highlights)) m);
    destruct (Z.leb_spec (Z.of_nat (code_points article + code_points highlights)) (m - 122));
    trivial; lia.
Qed.

(** X22: The conversion does not look at the highlights: a row whose highlights
    have no [len] (None, a number, a boolean) is converted, and it is
    [dp_transform] that raises on its datapoint. *)
Theorem unmeasurable_highlights d article highlights e :
  lookup "article" d = Some article ->
  lookup "highlights" d = Some highlights ->
  len highlights = inl e ->
  exists dp,
    convert_to_nova_micro_format kn (VDict d) = inr dp /\
    total_length dp = inl e /\
    forall rest n m, dp_transform kn (dp :: rest) n m = inl e.
Proof.
  intros Ha Hh He. eexists. split; [exact (convert_returns d _ _ Ha Hh)|].
  pose proof (converted_total d _ _ _ Ha Hh (convert_returns d _ _ Ha Hh)) as Ht.
  rewrite He in Ht. cbn [bind Monad_nb_result] in Ht.
  split; [exact Ht|].
  intros rest n m. unfold dp_transform. cbn [bind Monad_nb_result].
  pose proof (loop_stops m [] _ rest e [] (Forall_nil _) Ht) as Hloop.
  cbn [app] in Hloop. now rewrite Hloop.
Qed.

(** X23: A row without ['article'] raises [KeyError('article')], also when it
    has no ['highlights'] either; with an article and no ['highlights'] it
    raises [KeyError('highlights')]. *)
Theorem convert_missing_key d :
  (lookup "article" d = None ->
   convert_to_nova_micro_format kn (VDict d) = Raise (KeyError "article")) /\
  (lookup "article" d <> None ->
   lookup "highlights" d = None ->
   convert_to_nova_micro_format kn (VDict d) = Raise (KeyError "highlights")).
Proof.
  unfold convert_to_nova_micro_format. cbn [subscript]. split.
  - intros Ha. now rewrite (getitem_None _ _ Ha).
  - intros Ha Hh. destruct (lookup "article" d) as [a|] eqn:E; [|now elim Ha].
    now rewrite (getitem_Some _ _ _ E), (getitem_None _ _ Hh).
Qed.

(** X24: Rows with an article and highlights that are a string go through the
    two cells: every row is converted, and [dp_transform] returns on the
    datapoints, for any count and any length. *)
Theorem rows_go_through rows n m :
  Forall (fun row => exists d article highlights,
            row = VDict d /\
            lookup "article" d = Some article /\
            lookup "highlights" d = Some (VStr highlights)) rows ->
  exists dps lines,
    convert_all kn rows = inr dps /\
    length dps = length rows /\
    dp_transform kn dps n m = inr lines.
Proof.
  intros Hrows.
  assert (Hconv : exists dps,
            convert_all kn rows = inr dps /\ length dps = length rows /\
            Forall (fun dp => exists total, total_length dp = inr total) dps).
  { induction Hrows as [|row rows (d & a & hl & -> & Ha & Hh) _ IH].
    - exists []. now repeat split.
    - destruct IH as (dps & Hdps & Hlen & Hall).
      eexists (_ :: dps). cbn [convert_all bind ret Monad_result].
      rewrite (convert_returns d _ _ Ha Hh), Hdps. split; [reflexivity|].
      split; [cbn; now rewrite Hlen|].
      constructor; [|exact Hall].
      rewrite (converted_total d _ _ _ Ha Hh (convert_returns d _ _ Ha Hh)).
      cbn [len bind ret Monad_nb_result]. now eexists. }
  destruct Hconv as (dps & Hdps & Hlen & Hall).
  exists dps. eexists. split; [exact Hdps|]. split; [exact Hlen|].
  unfold dp_transform. cbn [bind ret Monad_nb_result].
  now rewrite (loop_total m dps [] Hall).
Qed.

End Conversion.

(** ** The further theorems at work on concrete runs *)

Lemma raises_after_fault_report_witness :
  exists t' reason outcome,
    snd (lambda_handler rt_no_build create_event []) =
      (t' ++ [Send (Report FAILED reason VNone) outcome])%list.
Proof.
  exact (raises_after_fault_report rt_no_build create_event _ _ eq_refl).
Defined.

Lemma report_fault_masks_witness :
  fst (lambda_handler rt_down create_event []) =
    Raise (ServiceError "Connection refused") /\
  reports_sent (snd (lambda_handler rt_down create_event [])) = [].
Proof.
  destruct (report_fault_masks rt_down create_event
              (ServiceError "Could not connect to the endpoint URL")
              (ServiceError "Connection refused")
              [StartBuild (VStr "p1")
                 [EnvVar "CFN_EVENT_TYPE" "PLAINTEXT" (VStr "Create")]
                 (Raise (ServiceError "Could not connect to the endpoint URL"))]
              eq_refl eq_refl) as [Hrun Hnone].
  split; [now rewrite Hrun | exact Hnone].
Defined.

Lemma missing_request_type_witness :
  lambda_handler rt_ok event_without_type [] =
    (Raise (KeyError "RequestType"),
     [Send (Report FAILED "'RequestType'" VNone) (Ok tt)]).
Proof.
  apply (missing_request_type rt_ok event_without_type); reflexivity.
Defined.

Lemma properties_not_a_dict_witness :
  lambda_handler_try rt_ok event_with_text_properties [] =
    (Raise (AttributeError "str" "get"), []).
Proof.
  apply (properties_not_a_dict rt_ok event_with_text_properties "Delete"
           (VStr "ProjectName=p1"));
    [cbn [In]; auto | reflexivity | reflexivity | discriminate].
Defined.

Lemma no_overrides_no_build_witness :
  ~ In (StartBuild (VStr "p1")
          [EnvVar "CFN_EVENT_TYPE" "PLAINTEXT" (VStr "Create")]
          (Ok (build_response arn1 7)))
       (snd (lambda_handler rt_ok create_event_without_ids [])).
Proof.
  apply (no_overrides_no_build rt_ok create_event_without_ids
           (KeyError "LogicalResourceId")).
  reflexivity.
Defined.

Lemma update_rebuilds_witness :
  lambda_handler rt_ok (update_event [] [x_id]) [] =
    (Ok tt,
     [StartBuild (VStr "p1")
        [EnvVar "CFN_EVENT_TYPE" "PLAINTEXT" (VStr "Update")]
        (Ok (build_response arn1 7));
      Send (Report SUCCESS "Started CodeBuild #7" (VStr "X")) (Ok tt)]).
Proof.
  apply (update_rebuilds rt_ok (update_event [] [x_id])
           [("ProjectName", VStr "p1")] (VStr "p1") _ (build_response arn1 7)
           (VDict [("arn", VStr arn1); ("buildNumber", VInt 7)])
           (VInt 7) (VStr "X")); reflexivity.
Defined.

Lemma update_fault_after_build_witness :
  let env := [EnvVar "CFN_EVENT_TYPE" "PLAINTEXT" (VStr "Update")] in
  lambda_handler rt_ok (update_event [] []) [] =
    (Raise (KeyError "PhysicalResourceId"),
     [StartBuild (VStr "p1") env (Ok (build_response arn1 7));
      Send (Report FAILED "'PhysicalResourceId'" VNone) (Ok tt)]) /\
  builds_started (snd (lambda_handler rt_ok (update_event [] []) [])) =
    [(VStr "p1", env)].
Proof.
  apply (update_fault_after_build rt_ok (update_event [] [])
           [("ProjectName", VStr "p1")] (VStr "p1") _ (build_response arn1 7)
           (VDict [("arn", VStr arn1); ("buildNumber", VInt 7)])
           (VInt 7)); reflexivity.
Defined.

Lemma misspelled_key_suppresses_report_witness :
  let event := update_event [("CodeBuildCalback", VBool true)] [] in
  lambda_handler rt_ok event [] =
    (Ok tt,
     [StartBuild (VStr "p1")
        [EnvVar "CFN_EVENT_TYPE" "PLAINTEXT" (VStr "Update")]
        (Ok (build_response arn1 7))]) /\
  reports_sent (snd (lambda_handler rt_ok event [])) = [].
Proof.
  apply (misspelled_key_suppresses_report rt_ok
           (update_event [("CodeBuildCalback", VBool true)] [])
           [("ProjectName", VStr "p1"); ("CodeBuildCalback", VBool true)]
           (VStr "p1")); reflexivity.
Defined.

Lemma destroy_only_on_delete_witness :
  exists request_type,
    lookup "RequestType" (delete_event [("BuildOnDelete", VBool true)]) =
      Some (VStr request_type) /\
    cdk_command request_type = "npx cdk destroy --all --force".
Proof.
  destruct (destroy_only_on_delete rt_ok
              (delete_event [("BuildOnDelete", VBool true)])
              (VStr "p1") _ _ (or_introl eq_refl))
    as (request_type & Hrt & _ & _ & Hdestroy & _).
  exists request_type. split; [exact Hrt|].
  apply Hdestroy. now injection Hrt as <-.
Defined.

Lemma callback_skipped_without_url_witness :
  cfn_callback host_ok [("CFN_EVENT_TYPE", "Create")] [] =
    (Ok Exit0, [Print "No CloudFormation response URL provided"]).
Proof.
  apply (callback_skipped_without_url host_ok [("CFN_EVENT_TYPE", "Create")]).
  left. reflexivity.
Defined.

Lemma callback_notifies_witness :
  exists body,
    cfn_callback host_ok (build_environ "0") [] =
      (Ok Completed,
       [Put "https://cfn.example/response" body (Ok tt);
        Print "Notified CloudFormation of FAILED"]).
Proof.
  eexists.
  apply (callback_notifies host_ok (build_environ "0")
           "https://cfn.example/response" (dumps event_data1)
           [("LogicalResourceId", VStr "SampleDeployment");
            ("RequestId", VStr "req-1");
            ("StackId", VStr "stack-1");
            ("NoEcho", VBool false);
            ("Data", VDict [])]
           "0" 0%Z arn1);
    (reflexivity || discriminate).
Defined.

Lemma callback_put_payload_witness :
  exists d,
    lookup "PhysicalResourceId" d = Some (VStr arn1) /\
    lookup "Reason" d =
      Some (VStr "See details in CloudWatch Log Stream /aws/codebuild/p1:7").
Proof.
  destruct (callback_put_payload host_ok (build_environ "1") _ _ _
              (or_introl eq_refl))
    as (d & build_arn & _ & Harn & _ & Hid & Hreason & _).
  injection Harn as <-. now exists d.
Defined.

Lemma delegated_build_answers_witness :
  exists body,
    puts (snd (cfn_callback host_ok (build_environ "1") [])) =
      [("https://cfn.example/response", body)].
Proof.
  eexists.
  refine (delegated_build_answers rt_ok host_ok create_callback_event
            [("ProjectName", VStr "p1"); ("CodeBuildCallback", VStr "true")]
            (build_environ "1") (VStr "p1") _ _
            "https://cfn.example/response" "1" 1%Z arn1
            (or_introl eq_refl) eq_refl eq_refl eq_refl _ _
            eq_refl eq_refl eq_refl eq_refl (fun _ => eq_refl)).
  - discriminate.
  - intros name v [H|[H|[H|[]]]]; injection H as <- <-; reflexivity.
Defined.

Lemma dp_transform_selects_witness :
  exists lines,
    dp_transform kernel_rev mixed_datapoints 10 133 = inr lines /\
    forall dp, In dp lines ->
      In dp mixed_datapoints /\
      exists total, total_length dp = inr total /\ (Z.of_nat total <= 133)%Z.
Proof.
  eexists. split; [reflexivity|].
  apply (dp_transform_selects kernel_rev mixed_datapoints 10 133 _
           (@Permutation_rev value) eq_refl).
Defined.

Lemma dp_transform_capped_witness :
  exists lines,
    dp_transform kernel_rev sample_datapoints 1 150 = inr lines /\
    (Z.of_nat (length lines) <= Z.min 1 20000)%Z.
Proof.
  eexists. split; [reflexivity|].
  apply (dp_transform_capped kernel_rev sample_datapoints 1 150);
    [discriminate | reflexivity].
Defined.

Lemma dp_transform_keeps_all_witness :
  exists lines,
    dp_transform kernel_rev mixed_datapoints 10 133 = inr lines /\
    Permutation (filter (fits 133) mixed_datapoints) lines.
Proof.
  eexists. split; [reflexivity|].
  apply (dp_transform_keeps_all kernel_rev mixed_datapoints 10 133 _
           (@Permutation_rev value) eq_refl).
  discriminate.
Defined.

Lemma dp_transform_negative_count_witness :
  exists lines,
    dp_transform kernel_rev mixed_datapoints (-1) 133 = inr lines /\
    length lines = 1.
Proof.
  eexists. split; [reflexivity|].
  exact (dp_transform_negative_count kernel_rev mixed_datapoints (-1) 133 _
           (@Permutation_rev value) eq_refl eq_refl).
Defined.

Lemma dp_transform_malformed_witness :
  dp_transform kernel_rev (sample_datapoints ++ VInt 1 :: sample_datapoints) 0 0 =
    inl (Exn (TypeError "'int' object is not subscriptable")).
Proof.
  apply (dp_transform_malformed kernel_rev sample_datapoints (VInt 1)).
  - repeat constructor; eexists; reflexivity.
  - reflexivity.
Defined.

(** Three bytes, one character. *)
Example euro_is_one_character :
  code_points (euro ++ "5 rise.") = 8 /\
  code_point_at 0 (euro ++ "5 rise.") = Some euro /\
  code_point_at 1 (euro ++ "5 rise.") = Some "5".
Proof. repeat split. Qed.

Lemma converted_budget_witness :
  exists dp,
    convert_to_nova_micro_format kernel_rev (row (euro ++ "5 rise.") "Up.") =
      inr dp /\
    total_length dp = inr 133 /\
    fits 133 dp = true /\
    fits 132 dp = false.
Proof.
  destruct (converted_budget kernel_rev
              [("article", VStr (euro ++ "5 rise.")); ("highlights", VStr "Up.");
               ("id", VStr "0001")]
              (euro ++ "5 rise.") "Up." eq_refl eq_refl)
    as (dp & Hdp & Htotal & Hfits).
  exists dp. split; [exact Hdp|]. split; [exact Htotal|].
  now rewrite !Hfits.
Defined.

Lemma unmeasurable_highlights_witness :
  exists dp,
    convert_to_nova_micro_format kernel_rev (VDict row_without_highlights) = inr dp /\
    dp_transform kernel_rev [dp] 1000 3000 =
      inl (Exn (TypeError "object of type 'NoneType' has no len()")).
Proof.
  destruct (unmeasurable_highlights kernel_rev row_without_highlights
              (VStr "Stocks rose.") VNone _ eq_refl eq_refl eq_refl)
    as (dp & Hdp & _ & Hraise).
  exists dp. split; [exact Hdp | apply Hraise].
Defined.

Lemma convert_missing_key_witness :
  convert_to_nova_micro_format kernel_rev (VDict []) = Raise (KeyError "article") /\
  convert_to_nova_micro_format kernel_rev (VDict [("article", VStr "a")]) =
    Raise (KeyError "highlights").
Proof.
  split.
  - apply (proj1 (convert_missing_key kernel_rev [])). reflexivity.
  - apply (proj2 (convert_missing_key kernel_rev [("article", VStr "a")]));
      [discriminate | reflexivity].
Defined.

Lemma rows_go_through_witness :
  exists dps lines,
    convert_all kernel_rev sample_rows = inr dps /\
    length dps = length sample_rows /\
    dp_transform kernel_rev dps 1000 3000 = inr lines.
Proof.
  apply (rows_go_through kernel_rev sample_rows).
  repeat constructor; eexists _, _, _; repeat split; reflexivity.
Defined.
